(** * The spreadsheet upload endpoint (api/storage and api/index.js)

    A shallow embedding of the HTTP handlers registered with
    [app.http('storage', ...)]: the full handler of
    [src/api/storage/_index.js] (module [Storage]) and the compact one of
    [src/api/index.js] (module [ApiIndex]).

    Conventions of the embedding.
    - A JavaScript string is a [string]: a finite sequence of code units,
      here the code units below 256.
    - A value that may be [undefined] or [null] is an [option];
      [truthy] is JavaScript's conversion to boolean on such values.
    - An object used as a dictionary ([fields], the blob metadata) is a
      finite map [gmap string string] of its own string-keyed properties.
    - The multipart parser, the blob SDK, the process environment, the
      settings file and the clock are collaborators of the handler: they
      are records of functions the handler is parameterised by.
    - Effects are explicit: a computation threads a state (the trace of
      calls made so far, the blob container, the number of clock reads)
      and ends normally, by a [return] statement, or by a thrown error. *)

From Stdlib Require Import Ascii String NArith Lia.
From stdpp Require Import gmap strings list fin_maps.

Local Open Scope stdpp_scope.

(** ** JavaScript string primitives used by the handlers *)

Module Js.

(** [!!v] for a string that may be undefined: only [undefined]/[null] and
    the empty string are falsy. *)
Definition truthy (v : option string) : bool :=
  match v with
  | Some (String _ _) => true
  | _ => false
  end.

(** [a || b] *)
Definition or_else (a b : option string) : option string :=
  if truthy a then a else b.

(** [String(v)], as in an interpolation [`${v}`], of a value that may be
    undefined. *)
Definition str (v : option string) : string :=
  match v with Some s => s | None => "undefined" end.

(** White space and line terminators stripped by [String.prototype.trim],
    among the code units below 256: TAB, LF, VT, FF, CR, SP and NBSP. *)
Definition isWhiteSpace (c : ascii) : bool :=
  match c with
  | "009" | "010" | "011" | "012" | "013" | " " | "160" => true
  | _ => false
  end%char.

Fixpoint trimStart (s : string) : string :=
  match s with
  | String c s' => if isWhiteSpace c then trimStart s' else s
  | EmptyString => EmptyString
  end.

Definition trimEnd (s : string) : string :=
  String.rev (trimStart (String.rev s)).

Definition trim (s : string) : string := trimEnd (trimStart s).

(** [String.prototype.toLowerCase] on code units below 256: the letters
    A-Z and the Latin-1 capitals (192-222 except the multiplication sign
    215) move up by 32. *)
Definition toLowerCaseChar (c : ascii) : ascii :=
  let n := N_of_ascii c in
  if ((65 <=? n) && (n <=? 90))%N then ascii_of_N (n + 32)
  else if ((192 <=? n) && (n <=? 222) && negb (n =? 215))%N
       then ascii_of_N (n + 32)
  else c.

Fixpoint toLowerCase (s : string) : string :=
  match s with
  | String c s' => String (toLowerCaseChar c) (toLowerCase s')
  | EmptyString => EmptyString
  end.

(** The [Canonicalize] operation of a case-insensitive regular expression
    without the unicode flag: the code unit of the upper-case form, unless
    that form is not a single code unit (sharp s, 223) or would turn a
    non-ASCII code unit into an ASCII one.  The micro sign (181) and the
    y with diaeresis (255) have their capitals above 255. *)
Definition canonicalize (c : ascii) : N :=
  let n := N_of_ascii c in
  if ((97 <=? n) && (n <=? 122))%N then (n - 32)%N
  else if (n =? 181)%N then 924%N
  else if (n =? 255)%N then 376%N
  else if ((224 <=? n) && (n <=? 254) && negb (n =? 247))%N then (n - 32)%N
  else n.

(** One pattern character against one input character under the [i]
    flag. *)
Definition matchChar_i (pat c : ascii) : bool :=
  (canonicalize pat =? canonicalize c)%N.

(** A literal pattern followed by [$]: the whole rest of the input must
    match the literal, character by character. *)
Fixpoint matchLiteralEnd_i (pat s : string) : bool :=
  match pat, s with
  | EmptyString, EmptyString => true
  | String p pat', String c s' => matchChar_i p c && matchLiteralEnd_i pat' s'
  | _, _ => false
  end.

(** [s.replace(/[:.]/g, '-')] *)
Definition replaceColonDotChar (c : ascii) : ascii :=
  match c with
  | ":" | "." => "-"
  | _ => c
  end%char.

Fixpoint replaceColonDot (s : string) : string :=
  match s with
  | String c s' => String (replaceColonDotChar c) (replaceColonDot s')
  | EmptyString => EmptyString
  end.

(** [s.split('.')]: the segments between dots, the current segment being
    accumulated in reverse in [cur]. *)
Fixpoint splitDot_go (cur : string) (s : string) : list string :=
  match s with
  | EmptyString => [String.rev cur]
  | String c s' =>
      if Ascii.eqb c "."%char then String.rev cur :: splitDot_go EmptyString s'
      else splitDot_go (String c cur) s'
  end.

Definition splitDot (s : string) : list string := splitDot_go EmptyString s.

(** [arr.pop()] read as an expression: the last element, [undefined] on
    an empty array. *)
Fixpoint pop (l : list string) : option string :=
  match l with
  | [] => None
  | [x] => Some x
  | _ :: l' => pop l'
  end.

End Js.

(** ** The clock: [new Date().toISOString()] *)

Module JsDate.

(** A reading of the clock in UTC, as the fields [toISOString] prints.
    Years are the four-digit ones, 0000 to 9999. *)
Record t := mk {
  year : N; month : N; day : N;
  hours : N; minutes : N; seconds : N; milliseconds : N
}.


Definition digit (n : N) : ascii := ascii_of_N (48 + n).

Definition pad2 (n : N) : string :=
  String (digit (n / 10 mod 10)) (String (digit (n mod 10)) EmptyString).

Definition pad3 (n : N) : string :=
  String (digit (n / 100 mod 10)) (pad2 n).

Definition pad4 (n : N) : string :=
  String (digit (n / 1000 mod 10)) (pad3 n).

(** [YYYY-MM-DDTHH:mm:ss.sssZ] *)
Definition toISOString (d : t) : string :=
  pad4 (year d) +:+ "-" +:+ pad2 (month d) +:+ "-" +:+ pad2 (day d) +:+ "T" +:+
  pad2 (hours d) +:+ ":" +:+ pad2 (minutes d) +:+ ":" +:+ pad2 (seconds d) +:+
  "." +:+ pad3 (milliseconds d) +:+ "Z".

End JsDate.

(** ** Data shared by the handlers *)

(** A [Buffer]. *)
Abbreviation Buffer := (list Byte.byte).

(** A thrown [Error]: the handlers read only its [message]. *)
Module JsError.
Record t := mk { message : string }.
End JsError.

(** One part of a parsed multipart body, as [parse-multipart] returns it:
    [filename] and [type] are set on file parts only, and [name] is
    undefined when the part's headers carry none. *)
Record Part := mkPart {
  name : option string;
  filename : option string;
  type : option string;
  data : Buffer
}.

(** The multipart parser ([require('parse-multipart')]). *)
Record Multipart := {
  getBoundary : string → string;
  Parse : Buffer → string → JsError.t + list Part
}.

(** An object held by the container. *)
Record StoredBlob := mkBlob {
  blob_data : Buffer;
  blob_contentType : string;
  blob_metadata : gmap string string
}.

(** The blob SDK ([require('@azure/storage-blob')]).  Each call that can
    fail says whether it throws, and with which error; [blob_url] is the
    [url] property of a block blob client. *)
Record BlobService := {
  fromConnectionString_throws : option string → option JsError.t;
  createIfNotExists_throws : string → option JsError.t;
  uploadData_throws : string → string → Buffer → option JsError.t;
  blob_url : option string → string → string → string
}.

(** [local.settings.json] next to the handler: absent, unreadable (reading
    or parsing it throws), or parsed, with the value of
    [localSettings.Values?.AzureWebJobsStorage]. *)
Inductive LocalSettings :=
  | NoSettingsFile
  | SettingsThrow (e : JsError.t)
  | Settings (AzureWebJobsStorage : option string).

(** What the handler reads from its host: the request-independent
    environment, the clock ([now k] is the [k]-th reading made while the
    request is handled) and the decoding of a buffer as text. *)
Record Host := {
  env_AzureWebJobsStorage : option string;
  localSettings : LocalSettings;
  now : nat → JsDate.t;
  Buffer_toString : Buffer → string
}.

(** [request.headers.get] and [request.arrayBuffer()]. *)
Record Request := {
  headers : gmap string string;
  arrayBuffer : JsError.t + Buffer
}.

(** Calls observable from outside the handler, in the order made. *)
Inductive Event :=
  | EvLog (msg : string)
  | EvArrayBuffer
  | EvParse (body : Buffer) (boundary : string)
  | EvExistsSync
  | EvReadSettings
  | EvFromConnectionString (connectionString : option string)
  | EvCreateIfNotExists (container : string)
  | EvUploadData (container blobName : string) (content : Buffer)
      (blobContentType : string) (metadata : gmap string string).

Definition isUpload (e : Event) : bool :=
  match e with EvUploadData _ _ _ _ _ => true | _ => false end.

(** The later steps of the pipeline: reading the body, parsing it, and
    every call to the blob SDK. *)
Definition isLaterStep (e : Event) : bool :=
  match e with
  | EvArrayBuffer | EvParse _ _ | EvFromConnectionString _
  | EvCreateIfNotExists _ | EvUploadData _ _ _ _ _ => true
  | _ => false
  end.

(** The upload calls of a trace. *)
Definition uploads (tr : list Event) : list Event := List.filter isUpload tr.

(** ** Effects *)

Record State := mkState {
  trace : list Event;
  blobs : gmap string StoredBlob;
  clockReads : nat
}.

Section Effects.
Context {Resp : Type}.

(** How a statement ends: normally with a value, by [return r], or by
    throwing. *)
Inductive Outcome (A : Type) :=
  | Normal (a : A)
  | Return (r : Resp)
  | Throw (e : JsError.t).
Global Arguments Normal {A} a.
Global Arguments Return {A} r.
Global Arguments Throw {A} e.

Definition M (A : Type) : Type := State → Outcome A * State.

Definition pure {A} (a : A) : M A := fun s => (Normal a, s).

Definition bind {A B} (m : M A) (k : A → M B) : M B :=
  fun s =>
    match m s with
    | (Normal a, s') => k a s'
    | (Return r, s') => (Return r, s')
    | (Throw e, s') => (Throw e, s')
    end.

Definition returns {A} (r : Resp) : M A := fun s => (Return r, s).

Definition throw {A} (e : JsError.t) : M A := fun s => (Throw e, s).

(** [try { m } catch (e) { h e }] *)
Definition try_catch {A} (m : M A) (h : JsError.t → M A) : M A :=
  fun s =>
    match m s with
    | (Throw e, s') => h e s'
    | r => r
    end.

Definition emit (e : Event) : M unit :=
  fun s => (Normal tt, mkState (trace s ++ [e]) (blobs s) (clockReads s)).

(** [context.log(msg, ...)] *)
Definition log (msg : string) : M unit := emit (EvLog msg).

(** A call that throws [e] when [failure] says so. *)
Definition may_throw (failure : option JsError.t) : M unit :=
  match failure with
  | Some e => throw e
  | None => pure tt
  end.

Definition of_result {A} (r : JsError.t + A) : M A :=
  match r with
  | inl e => throw e
  | inr a => pure a
  end.

Definition put_blob (k : string) (b : StoredBlob) : M unit :=
  fun s => (Normal tt, mkState (trace s) (<[k := b]> (blobs s)) (clockReads s)).

(** [new Date()] *)
Definition new_Date (h : Host) : M JsDate.t :=
  fun s => (Normal (now h (clockReads s)),
            mkState (trace s) (blobs s) (S (clockReads s))).

(** The result of an [async] function body: the value it returns, or
    the error it rejects with. *)
Definition run (m : M Resp) (s : State) : (JsError.t + Resp) * State :=
  match m s with
  | (Normal r, s') | (Return r, s') => (inr r, s')
  | (Throw e, s') => (inl e, s')
  end.
End Effects.

Arguments Outcome : clear implicits.
Arguments M : clear implicits.

Notation "x <- m ;; k" := (bind m (fun x => k))
  (at level 100, m at next level, right associativity).
Notation "m ;; k" := (bind m (fun _ => k))
  (at level 100, right associativity).

(** ** What a handler returns *)

(** The JSON objects the handlers build; an absent property is [None]. *)
Record JsonBody := mkJson {
  success : option bool;
  message : option string;
  error : option string;
  details : option string;
  missingFields : option (list string);
  fileName : option string;
  originalFileName : option string;
  url : option string;
  metadata : option (gmap string string);
  uploadedAt : option string
}.

(** A response body given as [body:]: a string or an object. *)
Inductive Body :=
  | Text (s : string)
  | Object (o : JsonBody).

(** The object a v4 handler returns: [{ status, body }] or
    [{ status, jsonBody }]. *)
Record HttpResponseInit := mkResponse {
  status : nat;
  body : option Body;
  jsonBody : option JsonBody
}.

(** What one invocation of a handler did: the response it resolved with
    (or the error it rejected with), the calls it made, and the container
    it left. *)
Record Run := mkRun {
  result : JsError.t + HttpResponseInit;
  calls : list Event;
  container : gmap string StoredBlob
}.

Definition invoke (m : M HttpResponseInit HttpResponseInit)
    (stored : gmap string StoredBlob) : Run :=
  let '(r, s) := run m (mkState [] stored 0) in
  mkRun r (trace s) (blobs s).

(** [{ success: false, error, details?, missingFields? }] *)
Definition failureBody (err : string) (det : option string)
    (missing : option (list string)) : JsonBody :=
  {| success := Some false; message := None; error := Some err;
     details := det; missingFields := missing; fileName := None;
     originalFileName := None; url := None; metadata := None;
     uploadedAt := None |}.

(** ** The full handler: [src/api/storage/_index.js] *)

Module Storage.

Definition requiredFields : list string :=
  ["company"; "business_unit"; "location"; "time_period"; "esg_topic";
   "esg_metric"; "unit"].

(** [parts.find(p => p.filename)] *)
Definition filePart (parts : list Part) : option Part :=
  List.find (fun p => Js.truthy (filename p)) parts.

(** The pattern [\.(xlsx|xls)$] tried at the start of [s]. *)
Definition matchExcelHere (s : string) : bool :=
  match s with
  | String c rest =>
      Js.matchChar_i "."%char c &&
      (Js.matchLiteralEnd_i "xlsx" rest || Js.matchLiteralEnd_i "xls" rest)
  | EmptyString => false
  end.

(** [/\.(xlsx|xls)$/i.test(s)]: the pattern is tried at every position. *)
Fixpoint isExcelFile (s : string) : bool :=
  matchExcelHere s ||
  match s with
  | String _ s' => isExcelFile s'
  | EmptyString => false
  end.

(** The loop [for (const part of parts)
      if (!part.filename && part.name) fields[part.name] = part.data.toString()]
    from the fields collected so far. *)
Definition addField (h : Host) (fields : gmap string string) (part : Part)
    : gmap string string :=
  if negb (Js.truthy (filename part)) && Js.truthy (name part)
  then match name part with
       | Some n => <[n := Buffer_toString h (data part)]> fields
       | None => fields
       end
  else fields.

Definition collectFields (h : Host) (parts : list Part) : gmap string string :=
  foldl (addField h) ∅ parts.

(** [!fields[field] || fields[field].trim() === ''] *)
Definition isMissing (fields : gmap string string) (field : string) : bool :=
  negb (Js.truthy (fields !! field)) ||
  match fields !! field with
  | Some v => bool_decide (Js.trim v = "")
  | None => false
  end.

Definition missing (fields : gmap string string) : list string :=
  List.filter (isMissing fields) requiredFields.

Definition contentTypeMap : gmap string string :=
  <["xlsx" := "application/vnd.openxmlformats-officedocument.spreadsheetml.sheet"]>
  (<["xls" := "application/vnd.ms-excel"]> ∅).

(** [contentTypeMap[ext.toLowerCase()] || 'application/octet-stream'] *)
Definition fileContentType (ext : string) : string :=
  Js.str (Js.or_else (contentTypeMap !! Js.toLowerCase ext)
                     (Some "application/octet-stream")).

(** [`${fields.company}_${timestamp}.${fileExtension}`] with
    [timestamp = date.toISOString().replace(/[:.]/g, '-')] and
    [fileExtension = filename.split('.').pop()]. *)
Definition uniqueFilename (fields : gmap string string) (date : JsDate.t)
    (fileExtension : option string) : string :=
  Js.str (fields !! "company") +:+ "_" +:+
  Js.replaceColonDot (JsDate.toISOString date) +:+ "." +:+
  Js.str fileExtension.

(** [{ originalFilename, uploadedAt, ...fields }]: a property of [fields]
    replaces the one written before the spread. *)
Definition blobMetadata (original : string) (uploaded : string)
    (fields : gmap string string) : gmap string string :=
  fields ∪ <["uploadedAt" := uploaded]> (<["originalFilename" := original]> ∅).

Definition successBody (name original link : string)
    (fields : gmap string string) (at_ : string) : JsonBody :=
  {| success := Some true; message := Some "File uploaded successfully";
     error := None; details := None; missingFields := None;
     fileName := Some name; originalFileName := Some original;
     url := Some link; metadata := Some fields; uploadedAt := Some at_ |}.

Definition respond (code : nat) (j : JsonBody) : HttpResponseInit :=
  {| status := code; body := None; jsonBody := Some j |}.

Section Handler.
Context (multipart : Multipart) (sdk : BlobService) (host : Host).

Local Abbreviation M := (M HttpResponseInit).

(** The connection string: the environment, else the settings file. *)
Definition connectionString : M (option string) :=
  let fromEnv := env_AzureWebJobsStorage host in
  if Js.truthy fromEnv then pure fromEnv
  else
    emit EvExistsSync ;;
    match localSettings host with
    | NoSettingsFile => pure fromEnv
    | SettingsThrow e => emit EvReadSettings ;; throw e
    | Settings v => emit EvReadSettings ;; pure v
    end.

(** The body of the [try] block. *)
Definition handlerBody (request : Request) : M HttpResponseInit :=
  log "Storage upload request received" ;;
  let contentType :=
    Js.or_else (headers request !! "content-type")
               (headers request !! "Content-Type") in
  if negb (Js.truthy contentType) then
    log "Error: Missing content-type header" ;;
    returns (respond 400 (failureBody "Missing content-type header" None None))
  else
  let boundary := getBoundary multipart (Js.str contentType) in
  if negb (Js.truthy (Some boundary)) then
    log "Error: Boundary not found in content-type:" ;;
    returns (respond 400 (failureBody
      "Malformed content-type header: boundary not found" None None))
  else
  log "Boundary extracted:" ;;
  bodyBuffer <- (emit EvArrayBuffer ;; of_result (arrayBuffer request)) ;;
  log "Body buffer size:" ;;
  parts <- try_catch
    (parts <- (emit (EvParse bodyBuffer boundary) ;;
               of_result (Parse multipart bodyBuffer boundary)) ;;
     log "Parsed parts count:" ;;
     pure parts)
    (fun parseError =>
     log "Error parsing multipart data:" ;;
     returns (respond 400 (failureBody "Failed to parse multipart data"
       (Some (JsError.message parseError)) None))) ;;
  match filePart parts with
  | None =>
    log "Error: No file part found in upload" ;;
    returns (respond 400 (failureBody "No file uploaded" None None))
  | Some filePart =>
    let original := Js.str (filename filePart) in
    log "File found:" ;;
    if negb (isExcelFile original) then
      log "Error: Invalid file type:" ;;
      returns (respond 400 (failureBody
        "Invalid file type. Only .xlsx and .xls files are allowed."
        None None))
    else
    let fields := collectFields host parts in
    log "Metadata fields:" ;;
    let missingFields := missing fields in
    if (0 <? length missingFields)%nat then
      log "Error: Missing required fields:" ;;
      returns (respond 400 (failureBody "Missing required fields" None
        (Some missingFields)))
    else
    connectionString <- connectionString ;;
    if negb (Js.truthy connectionString) then
      log "Error: Azure Storage connection string not found" ;;
      returns (respond 500 (failureBody
        "Azure Storage configuration not found" None None))
    else
    emit (EvFromConnectionString connectionString) ;;
    may_throw (fromConnectionString_throws sdk connectionString) ;;
    let containerName := "upload" in
    emit (EvCreateIfNotExists containerName) ;;
    may_throw (createIfNotExists_throws sdk containerName) ;;
    date <- new_Date host ;;
    let fileExtension := Js.pop (Js.splitDot original) in
    let uniqueFilename := uniqueFilename fields date fileExtension in
    extension <- match fileExtension with
                 | Some e => pure e
                 | None => throw (JsError.mk
                     "Cannot read properties of undefined (reading 'toLowerCase')")
                 end ;;
    let fileContentType := fileContentType extension in
    uploaded <- new_Date host ;;
    let blobMetadata :=
      blobMetadata original (JsDate.toISOString uploaded) fields in
    emit (EvUploadData containerName uniqueFilename (data filePart)
            fileContentType blobMetadata) ;;
    may_throw (uploadData_throws sdk containerName uniqueFilename
                 (data filePart)) ;;
    put_blob uniqueFilename
      (mkBlob (data filePart) fileContentType blobMetadata) ;;
    log "File uploaded successfully:" ;;
    finished <- new_Date host ;;
    returns (respond 200 (successBody uniqueFilename original
      (blob_url sdk connectionString containerName uniqueFilename)
      fields (JsDate.toISOString finished)))
  end.

(** [try { ... } catch (error) { ... }] *)
Definition handlerM (request : Request) : M HttpResponseInit :=
  try_catch (handlerBody request)
    (fun error =>
     log "Unexpected error:" ;;
     returns (respond 500 (failureBody "Internal server error"
       (Some (JsError.message error)) None))).

Definition handler (request : Request) (stored : gmap string StoredBlob)
    : Run :=
  invoke (handlerM request) stored.
End Handler.

End Storage.

(** ** The compact handler: [src/api/index.js] *)

Module ApiIndex.

Definition text (code : nat) (s : string) : HttpResponseInit :=
  {| status := code; body := Some (Text s); jsonBody := None |}.

Definition object (code : nat) (o : JsonBody) : HttpResponseInit :=
  {| status := code; body := Some (Object o); jsonBody := None |}.

(** [if (!part.filename) fields[part.name] = part.data.toString()]: the
    property key is the name converted to a string. *)
Definition addField (h : Host) (fields : gmap string string) (part : Part)
    : gmap string string :=
  if negb (Js.truthy (filename part))
  then <[Js.str (name part) := Buffer_toString h (data part)]> fields
  else fields.

Definition collectFields (h : Host) (parts : list Part) : gmap string string :=
  foldl (addField h) ∅ parts.

(** [{ message, fileName, url, metadata }] *)
Definition uploadedBody (name link : string) (fields : gmap string string)
    : JsonBody :=
  {| success := None; message := Some "File uploaded successfully";
     error := None; details := None; missingFields := None;
     fileName := Some name; originalFileName := None; url := Some link;
     metadata := Some fields; uploadedAt := None |}.

(** [{ error: 'Failed to upload file', details: uploadErr.message }] *)
Definition uploadFailedBody (uploadErr : JsError.t) : JsonBody :=
  {| success := None; message := None; error := Some "Failed to upload file";
     details := Some (JsError.message uploadErr); missingFields := None;
     fileName := None; originalFileName := None; url := None;
     metadata := None; uploadedAt := None |}.

Section Handler.
Context (multipart : Multipart) (sdk : BlobService) (host : Host).

Local Abbreviation M := (M HttpResponseInit).

Definition handlerM (request : Request) : M HttpResponseInit :=
  let contentType :=
    Js.or_else (headers request !! "content-type")
               (headers request !! "Content-Type") in
  if negb (Js.truthy contentType) then
    returns (text 400 "Missing content-type header")
  else
  let boundary := getBoundary multipart (Js.str contentType) in
  if negb (Js.truthy (Some boundary)) then
    returns (text 400 "Malformed content-type header: boundary not found")
  else
  bodyBuffer <- (emit EvArrayBuffer ;; of_result (arrayBuffer request)) ;;
  parts <- (emit (EvParse bodyBuffer boundary) ;;
            of_result (Parse multipart bodyBuffer boundary)) ;;
  match Storage.filePart parts with
  | None => returns (text 400 "No file uploaded")
  | Some filePart =>
    let fields := collectFields host parts in
    try_catch
      (let connectionString := env_AzureWebJobsStorage host in
       emit (EvFromConnectionString connectionString) ;;
       may_throw (fromConnectionString_throws sdk connectionString) ;;
       let containerName := "upload" in
       emit (EvCreateIfNotExists containerName) ;;
       may_throw (createIfNotExists_throws sdk containerName) ;;
       let blobName := Js.str (filename filePart) in
       let blobContentType :=
         Js.str (Js.or_else (type filePart)
                            (Some "application/octet-stream")) in
       emit (EvUploadData containerName blobName (data filePart)
               blobContentType ∅) ;;
       may_throw (uploadData_throws sdk containerName blobName
                    (data filePart)) ;;
       put_blob blobName (mkBlob (data filePart) blobContentType ∅) ;;
       returns (object 200 (uploadedBody blobName
         (blob_url sdk connectionString containerName blobName) fields)))
      (fun uploadErr => returns (object 500 (uploadFailedBody uploadErr)))
  end.

Definition handler (request : Request) (stored : gmap string StoredBlob)
    : Run :=
  invoke (handlerM request) stored.
End Handler.

End ApiIndex.

(** ** Vocabulary of the specification *)

(** The content type of a request, as the handler finds it: the value of
    the header under either spelling, an empty value counting as none. *)
Definition contentTypeOf (request : Request) : option string :=
  let v := Js.or_else (headers request !! "content-type")
                      (headers request !! "Content-Type") in
  if Js.truthy v then v else None.

(** The request carries a content type with a boundary and a readable,
    well-formed multipart body, which the parser turns into [parts]. *)
Definition parsesTo (multipart : Multipart) (request : Request)
    (parts : list Part) : Prop :=
  ∃ contentType bodyBuffer,
    contentTypeOf request = Some contentType ∧
    getBoundary multipart contentType ≠ "" ∧
    arrayBuffer request = inr bodyBuffer ∧
    Parse multipart bodyBuffer (getBoundary multipart contentType) = inr parts.

(** A part carries a filename. *)
Definition hasFilename (p : Part) : Prop := Js.truthy (filename p) = true.

#[global] Instance hasFilename_dec p : Decision (hasFilename p).
Proof. unfold hasFilename. apply _. Defined.

(** A file name ends in an accepted spreadsheet extension, [.xlsx] or
    [.xls], letter case apart. *)
Definition endsWithSpreadsheetExtension (s : string) : Prop :=
  ∃ stem ext, s = stem +:+ "." +:+ ext ∧
    (Js.toLowerCase ext = "xlsx" ∨ Js.toLowerCase ext = "xls").

(** A form field named [k]: a part without a filename whose name is [k],
    [k] not empty. *)
Definition isField (k : string) (p : Part) : bool :=
  negb (Js.truthy (filename p)) && bool_decide (name p = Some k) &&
  negb (bool_decide (k = "")).

(** The value submitted for the field [k]: the payload, as text, of the
    last form field of that name. *)
Definition submitted (h : Host) (parts : list Part) (k : string)
    : option string :=
  match List.find (isField k) (rev parts) with
  | Some p => Some (Buffer_toString h (data p))
  | None => None
  end.

(** A submitted value is absent, or blank: empty once trimmed. *)
Definition absentOrBlank (v : option string) : Prop :=
  match v with
  | None => True
  | Some s => Js.trim s = ""
  end.

#[global] Instance absentOrBlank_dec v : Decision (absentOrBlank v).
Proof. destruct v; simpl; apply _. Defined.

(** A request that passes every check of the handler: it parses to
    [parts], its first part with a filename is [file], a spreadsheet, and
    the seven required fields are all submitted and none is blank. *)
Definition validSubmission (multipart : Multipart) (host : Host)
    (request : Request) (parts : list Part) (file : Part) : Prop :=
  parsesTo multipart request parts ∧
  Storage.filePart parts = Some file ∧
  endsWithSpreadsheetExtension (Js.str (filename file)) ∧
  Forall (λ k, ¬ absentOrBlank (submitted host parts k)) Storage.requiredFields.

(** The storage credential resolves to [cs]: from the environment, else
    from the settings file. *)
Definition credential (h : Host) (cs : string) : Prop :=
  cs ≠ "" ∧
  (env_AzureWebJobsStorage h = Some cs ∨
   (Js.truthy (env_AzureWebJobsStorage h) = false ∧
    localSettings h = Settings (Some cs))).


(** The first error the blob SDK throws, if any, when the connection
    string is [cs] and [content] is uploaded as [blobName]. *)
Definition sdkFailure (sdk : BlobService) (cs : option string)
    (blobName : string) (content : Buffer) : option JsError.t :=
  match fromConnectionString_throws sdk cs with
  | Some e => Some e
  | None =>
      match createIfNotExists_throws sdk "upload" with
      | Some e => Some e
      | None => uploadData_throws sdk "upload" blobName content
      end
  end.

(** A call to the blob SDK. *)
Definition isSdkCall (e : Event) : bool :=
  match e with
  | EvFromConnectionString _ | EvCreateIfNotExists _
  | EvUploadData _ _ _ _ _ => true
  | _ => false
  end.

(** The JSON object of a response, wherever the handler put it. *)
Definition jsonOf (resp : HttpResponseInit) : option JsonBody :=
  match jsonBody resp, body resp with
  | Some j, _ => Some j
  | None, Some (Object j) => Some j
  | None, _ => None
  end.

(** The run answered 500 with [success: false] and [msg] in [details]. *)
Definition reports500 (r : Run) (msg : string) : Prop :=
  ∃ resp j, result r = inr resp ∧ status resp = 500 ∧ jsonOf resp = Some j ∧
    success j = Some false ∧ details j = Some msg.


(** The run answered 400 with [success: false] and a [missingFields]
    list. *)
Definition listsMissingFields (r : Run) : Prop :=
  ∃ resp j names, result r = inr resp ∧ status resp = 400 ∧
    jsonOf resp = Some j ∧ success j = Some false ∧
    missingFields j = Some names.


(** ** Test doubles

    In-memory collaborators, on which the statements below are run. *)

Module Fixture.

Definition bytes (s : string) : Buffer := String.list_byte_of_string s.

(** A parser double: the boundary is what follows [boundary=], and any
    body parses to the given parts. *)
Definition boundaryOf (contentType : string) : string :=
  match String.index 0 "boundary=" contentType with
  | Some i =>
      String.substring (i + 9) (String.length contentType - (i + 9)) contentType
  | None => ""
  end.

Definition parser (parts : list Part) : Multipart :=
  {| getBoundary := boundaryOf; Parse := fun _ _ => inr parts |}.

Definition field (n v : string) : Part := mkPart (Some n) None None (bytes v).

Definition upload (n : string) (content : string) : Part :=
  mkPart (Some "file") (Some n) (Some "application/octet-stream") (bytes content).

Definition seven : list Part :=
  [field "company" "Acme"; field "business_unit" "IT"; field "location" "Oslo";
   field "time_period" "2024"; field "esg_topic" "Energy";
   field "esg_metric" "Use"; field "unit" " kWh "].

(** The seven fields and [report.xlsx]. *)
Definition form : list Part := seven ++ [upload "report.xlsx" "PK"].

(** A store that accepts everything, and one whose upload is refused. *)
Definition store : BlobService :=
  {| fromConnectionString_throws := fun _ => None;
     createIfNotExists_throws := fun _ => None;
     uploadData_throws := fun _ _ _ => None;
     blob_url := fun _ c k => "https://acct.blob.core.windows.net/" +:+ c +:+ "/" +:+ k |}.

Definition quota : JsError.t := JsError.mk "quota exceeded".

Definition fullStore : BlobService :=
  {| fromConnectionString_throws := fun _ => None;
     createIfNotExists_throws := fun _ => None;
     uploadData_throws := fun _ _ _ => Some quota;
     blob_url := blob_url store |}.

Definition clock (k : nat) : JsDate.t :=
  JsDate.mk 2025 6 26 22 9 19 (N.of_nat k).


(** A host with the credential in its environment, and one without any. *)
Definition machine : Host :=
  {| env_AzureWebJobsStorage := Some "UseDevelopmentStorage=true";
     localSettings := NoSettingsFile; now := clock;
     Buffer_toString := String.string_of_list_byte |}.


Definition post (contentType : string) : Request :=
  {| headers := {[ "content-type" := contentType ]};
     arrayBuffer := inr (bytes "raw") |}.

Definition multipartPost : Request := post "multipart/form-data; boundary=XyZ".

Definition bare : Request :=
  {| headers := ∅; arrayBuffer := inr (bytes "raw") |}.

End Fixture.

(** ** The earlier function: [module.exports] of [src/api/storage/_index.js] *)

Module Legacy.

(** [{ message, fileName, metadata }] *)
Definition uploadedBody (name : string) (fields : gmap string string)
    : JsonBody :=
  {| success := None; message := Some "File uploaded successfully";
     error := None; details := None; missingFields := None;
     fileName := Some name; originalFileName := None; url := None;
     metadata := Some fields; uploadedAt := None |}.

Section Handler.
Context (multipart : Multipart) (sdk : BlobService) (host : Host).

Local Abbreviation M := (M HttpResponseInit).

(** The function body; [context.res = r; return] is [returns r].  No
    options are passed to [uploadData]: the call carries no content type
    and no metadata. *)
Definition handlerM (req : Request) : M HttpResponseInit :=
  let contentType :=
    Js.or_else (headers req !! "content-type")
               (headers req !! "Content-Type") in
  log "Index.js entry point" ;;
  if negb (Js.truthy contentType) then
    returns (ApiIndex.text 400 "Missing content-type header")
  else
  let boundary := getBoundary multipart (Js.str contentType) in
  bodyBuffer <- (emit EvArrayBuffer ;; of_result (arrayBuffer req)) ;;
  parts <- (emit (EvParse bodyBuffer boundary) ;;
            of_result (Parse multipart bodyBuffer boundary)) ;;
  match Storage.filePart parts with
  | None => returns (ApiIndex.text 400 "No file uploaded")
  | Some filePart =>
    let fields := ApiIndex.collectFields host parts in
    let AZURE_STORAGE_CONNECTION_STRING := env_AzureWebJobsStorage host in
    emit (EvFromConnectionString AZURE_STORAGE_CONNECTION_STRING) ;;
    may_throw (fromConnectionString_throws sdk AZURE_STORAGE_CONNECTION_STRING) ;;
    let containerName := "uploads" in
    emit (EvCreateIfNotExists containerName) ;;
    may_throw (createIfNotExists_throws sdk containerName) ;;
    let blobName := Js.str (filename filePart) in
    emit (EvUploadData containerName blobName (data filePart) "" ∅) ;;
    may_throw (uploadData_throws sdk containerName blobName (data filePart)) ;;
    put_blob blobName (mkBlob (data filePart) "" ∅) ;;
    returns (ApiIndex.object 200 (uploadedBody blobName fields))
  end.

Definition handler (req : Request) (stored : gmap string StoredBlob) : Run :=
  invoke (handlerM req) stored.
End Handler.

End Legacy.

(** ** The parsing script: [testMultipartParsing] of
    [src/api/storage/_index.js] *)

Module TestMultipart.

(** The callback of [parts.forEach]: a part with a filename becomes the
    file part, any other part is recorded under its name. *)
Definition visit (h : Host) (acc : gmap string string * option Part)
    (part : Part) : gmap string string * option Part :=
  if Js.truthy (filename part) then (acc.1, Some part)
  else (<[Js.str (name part) := Buffer_toString h (data part)]> acc.1, acc.2).

(** [const fields = {}; let filePart = null; parts.forEach(...)] *)
Definition analyse (h : Host) (parts : list Part)
    : gmap string string * option Part :=
  foldl (visit h) (∅, None) parts.

(** [requiredFields.filter(field => !fields[field])] *)
Definition missingFields (fields : gmap string string) : list string :=
  List.filter (λ field, negb (Js.truthy (fields !! field)))
    Storage.requiredFields.

End TestMultipart.

(** ** More vocabulary *)

(** Every character of the string is white space. *)
Fixpoint allWhiteSpace (s : string) : Prop :=
  match s with
  | String c s' => Js.isWhiteSpace c = true ∧ allWhiteSpace s'
  | EmptyString => True
  end.

(** The character does not occur in the string. *)
Fixpoint free (c : ascii) (s : string) : Prop :=
  match s with
  | String c' s' => c' ≠ c ∧ free c s'
  | EmptyString => True
  end.

(** The calls to the blob SDK of a trace. *)
Definition sdkCalls (tr : list Event) : list Event := List.filter isSdkCall tr.

(** The last part of a list that carries a filename. *)
Definition lastFilePart (parts : list Part) : option Part :=
  List.find (λ p, Js.truthy (filename p)) (rev parts).

(** The first error thrown by the blob SDK for the earlier function, which
    works on the container [uploads]. *)
Definition legacySdkFailure (sdk : BlobService) (cs : option string)
    (blobName : string) (content : Buffer) : option JsError.t :=
  match fromConnectionString_throws sdk cs with
  | Some e => Some e
  | None =>
      match createIfNotExists_throws sdk "uploads" with
      | Some e => Some e
      | None => uploadData_throws sdk "uploads" blobName content
      end
  end.

(** ** More test doubles *)

Module Scenario.

Definition truncated : JsError.t := JsError.mk "Unexpected end of multipart data".

(** A parser that rejects every body. *)
Definition brokenParser : Multipart :=
  {| getBoundary := Fixture.boundaryOf; Parse := fun _ _ => inl truncated |}.

Definition aborted : JsError.t := JsError.mk "aborted".

(** A request whose body cannot be read. *)
Definition unreadable : Request :=
  {| headers := {[ "content-type" := "multipart/form-data; boundary=XyZ" ]};
     arrayBuffer := inl aborted |}.

Definition badJson : JsError.t := JsError.mk "Unexpected token } in JSON".

(** Hosts without the environment variable: the settings file holds the
    credential, or cannot be parsed. *)
Definition localMachine : Host :=
  {| env_AzureWebJobsStorage := None;
     localSettings := Settings (Some "UseDevelopmentStorage=true");
     now := Fixture.clock;
     Buffer_toString := String.string_of_list_byte |}.

Definition brokenSettings : Host :=
  {| env_AzureWebJobsStorage := None;
     localSettings := SettingsThrow badJson;
     now := Fixture.clock;
     Buffer_toString := String.string_of_list_byte |}.

(** A form whose [unit] is blank, and one that names its own
    [originalFilename]. *)
Definition blankUnit : list Part :=
  [Fixture.field "company" "Acme"; Fixture.field "business_unit" "IT";
   Fixture.field "location" "Oslo"; Fixture.field "time_period" "2024";
   Fixture.field "esg_topic" "Energy"; Fixture.field "esg_metric" "Use";
   Fixture.field "unit" "   "; Fixture.upload "report.xlsx" "PK"].


End Scenario.

(** ** Vocabulary of the proofs *)

(** A pattern letter matches exactly the characters whose lower-case form
    it is. *)
Definition lowerLetter (p : ascii) : Prop :=
  ∀ c, Js.matchChar_i p c = true ↔ Js.toLowerCaseChar c = p.

Fixpoint lowerLetters (pat : string) : Prop :=
  match pat with
  | String p pat' => lowerLetter p ∧ lowerLetters pat'
  | EmptyString => True
  end.

Ltac by_cases_on_char c :=
  destruct c as [[] [] [] [] [] [] [] []]; vm_compute; split; congruence.

Ltac unfold_effects :=
  unfold invoke, run, try_catch, bind, log, emit, returns, pure, throw,
    may_throw, of_result, new_Date, put_blob.

(** Run the handler on a request that [parsesTo] its parts, up to the
    selection of the file part. *)
Ltac enter_parsed H :=
  let ct := fresh "contentType" in
  let buf := fresh "bodyBuffer" in
  let Hct := fresh "Hct" in
  let Hb := fresh "Hboundary" in
  let Hbuf := fresh "Hbuffer" in
  let Hp := fresh "Hparse" in
  destruct H as (ct & buf & Hct & Hb & Hbuf & Hp);
  unfold Storage.handler, Storage.handlerM, Storage.handlerBody,
    ApiIndex.handler, ApiIndex.handlerM;
  unfold contentTypeOf in Hct;
  destruct (Js.or_else _ _) as [[|? ?]|]; try discriminate Hct;
  cbn [Js.truthy] in Hct; injection Hct as <-;
  cbn [Js.truthy Js.str negb];
  destruct (getBoundary _ _) as [|? ?] eqn:?; [congruence|];
  cbn [Js.truthy Js.str negb];
  rewrite Hbuf; unfold_effects; simpl;
  rewrite Hp; simpl.

(** Split on every test the rest of the run depends on. *)
Ltac split_run :=
  repeat (match goal with
          | |- context [match ?x with _ => _ end] =>
              lazymatch x with
              | context [match _ with _ => _ end] => fail
              | _ => destruct x eqn:?
              end
          end; simpl).

Ltac decide_by_computing := apply (bool_decide_unpack _); vm_compute; exact I.

Ltac fixture_parses :=
  exists "multipart/form-data; boundary=XyZ", (Fixture.bytes "raw");
  repeat split; (reflexivity || discriminate).

(** * Properties *)

Example trim_strips_both_ends : Js.trim "  a b  " = "a b".
Proof. reflexivity. Qed.

Example splitDot_keeps_empty_segments :
  Js.splitDot "a.b..c" = ["a"; "b"; ""; "c"].
Proof. reflexivity. Qed.

Example toISOString_pads :
  JsDate.toISOString (JsDate.mk 2025 6 26 22 9 19 45) = "2025-06-26T22:09:19.045Z".
Proof. reflexivity. Qed.

(** ** The extension test *)

Example isExcelFile_accepts :
  Storage.isExcelFile "report.xlsx" = true ∧ Storage.isExcelFile "Q1.XLS" = true ∧
  Storage.isExcelFile ".xlsx" = true.
Proof. repeat split. Qed.

Example isExcelFile_rejects :
  Storage.isExcelFile "report.xlsx.txt" = false ∧
  Storage.isExcelFile "xlsx" = false ∧ Storage.isExcelFile "report.xlsm" = false.
Proof. repeat split. Qed.

Lemma append_cons a s t : String a s +:+ t = String a (s +:+ t).
Proof. reflexivity. Qed.

Lemma append_nil t : "" +:+ t = t.
Proof. reflexivity. Qed.

Lemma matchChar_dot c : Js.matchChar_i "."%char c = true ↔ c = "."%char.
Proof. by_cases_on_char c. Qed.

Lemma lowerLetter_x : lowerLetter "x"%char.
Proof. intros c. by_cases_on_char c. Qed.

Lemma lowerLetter_l : lowerLetter "l"%char.
Proof. intros c. by_cases_on_char c. Qed.

Lemma lowerLetter_s : lowerLetter "s"%char.
Proof. intros c. by_cases_on_char c. Qed.

Lemma matchLiteralEnd_lower pat :
  lowerLetters pat →
  ∀ s, Js.matchLiteralEnd_i pat s = true ↔ Js.toLowerCase s = pat.
Proof.
  induction pat as [|p pat IH]; intros Hpat [|c s]; simpl;
    try (split; congruence).
  destruct Hpat as [Hp Hpat]. rewrite andb_true_iff, (Hp c), (IH Hpat s).
  split; [intros [-> ->]; reflexivity | intros [= -> ->]; auto].
Qed.

Lemma matchExcelHere_spec s :
  Storage.matchExcelHere s = true ↔
  ∃ ext, s = String "."%char ext ∧
    (Js.toLowerCase ext = "xlsx" ∨ Js.toLowerCase ext = "xls").
Proof.
  destruct s as [|c rest]; unfold Storage.matchExcelHere.
  { split; [congruence | intros (? & ? & _); congruence]. }
  rewrite andb_true_iff, orb_true_iff, matchChar_dot.
  rewrite !matchLiteralEnd_lower
    by (simpl; auto using lowerLetter_x, lowerLetter_l, lowerLetter_s).
  split.
  - intros [-> H]. eauto.
  - intros (ext & [= -> ->] & H). auto.
Qed.

(** The regular expression accepts exactly the names that end in one of
    the two extensions, letter case apart. *)
Lemma isExcelFile_spec s :
  Storage.isExcelFile s = true ↔ endsWithSpreadsheetExtension s.
Proof.
  unfold endsWithSpreadsheetExtension. split.
  - induction s as [|a s IH]; [discriminate|].
    cbn [Storage.isExcelFile]. rewrite orb_true_iff. intros [H|H].
    + apply matchExcelHere_spec in H as (ext & -> & H). exists "", ext. auto.
    + destruct (IH H) as (stem & ext & -> & Hext).
      exists (String a stem), ext. auto.
  - intros (stem & ext & -> & Hext). induction stem as [|a stem IH].
    + rewrite append_nil. change ("." +:+ ext) with (String "."%char ext).
      cbn [Storage.isExcelFile]. rewrite orb_true_iff. left.
      apply matchExcelHere_spec. eauto.
    + rewrite append_cons. cbn [Storage.isExcelFile]. rewrite IH.
      apply orb_true_r.
Qed.

Lemma pop_splitDot_go cur s : is_Some (Js.pop (Js.splitDot_go cur s)).
Proof.
  revert cur. induction s as [|c s IH]; intros cur; simpl; [eauto|].
  destruct (Ascii.eqb c "."); [|apply IH].
  specialize (IH "").
  destruct (Js.splitDot_go "" s); [destruct IH; discriminate | exact IH].
Qed.

(** [split] never returns an empty array, so [pop] finds a segment. *)
Lemma pop_splitDot s : is_Some (Js.pop (Js.splitDot s)).
Proof. apply pop_splitDot_go. Qed.

(** ** The metadata mapping *)

Lemma isMissing_spec fields k :
  Storage.isMissing fields k = true ↔ absentOrBlank (fields !! k).
Proof.
  unfold Storage.isMissing, absentOrBlank.
  destruct (fields !! k) as [[|a v]|]; simpl.
  - split; reflexivity.
  - apply bool_decide_eq_true.
  - split; auto.
Qed.

Lemma foldl_addField h parts acc k :
  foldl (Storage.addField h) acc parts !! k =
  match List.find (isField k) (rev parts) with
  | Some p => Some (Buffer_toString h (data p))
  | None => acc !! k
  end.
Proof.
  induction parts as [|x l IH] using rev_ind; [reflexivity|].
  rewrite foldl_app, rev_unit. simpl.
  unfold Storage.addField at 1, isField at 1.
  destruct (Js.truthy (filename x)); simpl; [exact IH|].
  destruct (name x) as [[|a n]|] eqn:Hn; simpl.
  - case_bool_decide as Hk; simpl; [|exact IH].
    simplify_eq. exact IH.
  - case_bool_decide as Hk; simpl.
    + simplify_eq. simpl. apply lookup_insert_eq.
    + rewrite lookup_insert_ne by congruence. exact IH.
  - exact IH.
Qed.

(** The mapping holds, under each name, the value submitted for it. *)
Lemma collectFields_submitted h parts k :
  Storage.collectFields h parts !! k = submitted h parts k.
Proof.
  unfold Storage.collectFields, submitted. rewrite foldl_addField.
  destruct (List.find _ _); [reflexivity | apply lookup_empty].
Qed.

Lemma isMissing_submitted h parts k :
  Storage.isMissing (Storage.collectFields h parts) k =
  bool_decide (absentOrBlank (submitted h parts k)).
Proof.
  rewrite <- collectFields_submitted. apply eq_true_iff_eq.
  rewrite isMissing_spec, bool_decide_eq_true. reflexivity.
Qed.

Lemma missing_submitted h parts :
  Storage.missing (Storage.collectFields h parts) =
  List.filter (λ k, bool_decide (absentOrBlank (submitted h parts k)))
    Storage.requiredFields.
Proof.
  unfold Storage.missing. apply filter_ext. intros k. apply isMissing_submitted.
Qed.

Lemma missing_nil h parts :
  Forall (λ k, ¬ absentOrBlank (submitted h parts k)) Storage.requiredFields →
  Storage.missing (Storage.collectFields h parts) = [].
Proof.
  rewrite missing_submitted. induction 1 as [|k l Hk _ IH]; [reflexivity|].
  simpl. rewrite bool_decide_eq_false_2 by exact Hk. exact IH.
Qed.

Lemma missing_cons h parts :
  Exists (λ k, absentOrBlank (submitted h parts k)) Storage.requiredFields →
  (0 <? length (Storage.missing (Storage.collectFields h parts)))%nat = true.
Proof.
  rewrite missing_submitted. induction 1 as [k l Hk|k l _ IH]; simpl.
  - rewrite bool_decide_eq_true_2 by exact Hk. reflexivity.
  - destruct (bool_decide _); [reflexivity | exact IH].
Qed.

(** ** The generated key *)











(** ** Running the handler *)

(** The handler is run by [simpl]; its helper functions stay folded. *)
Arguments Storage.filePart : simpl never.
Arguments Storage.isExcelFile : simpl never.
Arguments Storage.collectFields : simpl never.
Arguments ApiIndex.collectFields : simpl never.
Arguments Storage.missing : simpl never.
Arguments Storage.uniqueFilename : simpl never.
Arguments Storage.fileContentType : simpl never.
Arguments Storage.blobMetadata : simpl never.
Arguments JsDate.toISOString : simpl never.
Arguments Js.splitDot : simpl never.
Arguments Js.pop : simpl never.

Lemma filePart_none parts :
  Forall (λ p, ¬ hasFilename p) parts → Storage.filePart parts = None.
Proof.
  unfold Storage.filePart, hasFilename.
  induction 1 as [|p l Hp _ IH]; simpl; [reflexivity|].
  destruct (Js.truthy (filename p)); [contradiction | exact IH].
Qed.

Lemma filePart_first before p after :
  Forall (λ q, ¬ hasFilename q) before → hasFilename p →
  Storage.filePart (before ++ p :: after) = Some p.
Proof.
  unfold Storage.filePart, hasFilename. intros Hb Hp.
  induction Hb as [|q l Hq _ IH]; simpl.
  - rewrite Hp. reflexivity.
  - destruct (Js.truthy (filename q)); [contradiction | exact IH].
Qed.

(** Whatever the run does next, an upload it issues carries the bytes of
    the selected part. *)
Lemma handler_uploads_selected multipart sdk host request stored parts file :
  parsesTo multipart request parts →
  Storage.filePart parts = Some file →
  let r := Storage.handler multipart sdk host request stored in
  ∀ e, e ∈ uploads (calls r) →
    ∃ blobName contentType md,
      e = EvUploadData "upload" blobName (data file) contentType md.
Proof.
  intros Hparsed Hfile. enter_parsed Hparsed. rewrite Hfile. simpl.
  unfold Storage.connectionString. unfold_effects. split_run;
    intros ev Hev; try (apply elem_of_nil in Hev; contradiction).
  all: apply list_elem_of_singleton in Hev; subst ev; eauto.
Qed.

(** What a valid submission leads to, once the credential is found: the
    first error of the SDK as a 500, or else the upload and a 200. *)
Lemma handler_sdk_outcome multipart sdk host request stored parts file cs :
  validSubmission multipart host request parts file →
  credential host cs →
  let fields := Storage.collectFields host parts in
  let original := Js.str (filename file) in
  let key := Storage.uniqueFilename fields (now host 0)
               (Js.pop (Js.splitDot original)) in
  let r := Storage.handler multipart sdk host request stored in
  match sdkFailure sdk (Some cs) key (data file) with
  | Some e =>
      result r = inr (Storage.respond 500
        (failureBody "Internal server error" (Some (JsError.message e)) None)) ∧
      container r = stored
  | None =>
      ∃ ext,
        let contentType := Storage.fileContentType ext in
        let md := Storage.blobMetadata original
                    (JsDate.toISOString (now host 1)) fields in
        Js.pop (Js.splitDot original) = Some ext ∧
        result r = inr (Storage.respond 200
          (Storage.successBody key original
             (blob_url sdk (Some cs) "upload" key) fields
             (JsDate.toISOString (now host 2)))) ∧
        uploads (calls r) =
          [EvUploadData "upload" key (data file) contentType md] ∧
        container r = <[key := mkBlob (data file) contentType md]> stored
  end.
Proof.
  intros (Hparsed & Hfile & Hext & Hfields) (Hne & Hcred).
  apply isExcelFile_spec in Hext. apply missing_nil in Hfields.
  destruct (pop_splitDot (Js.str (filename file))) as [ext Hpop].
  unfold sdkFailure. cbv zeta.
  enter_parsed Hparsed. rewrite Hfile. simpl. rewrite Hext. simpl.
  rewrite Hfields. simpl. rewrite Hpop.
  unfold Storage.connectionString.
  destruct cs as [|c cs']; [congruence|].
  destruct Hcred as [Henv|[Henv Hset]];
    rewrite Henv, ?Hset; unfold_effects; simpl;
    (destruct (fromConnectionString_throws _ _); simpl; [auto|]);
    (destruct (createIfNotExists_throws _ _); simpl; [auto|]);
    (destruct (uploadData_throws _ _ _ _); simpl; [auto|]);
    exists ext; repeat split.
Qed.

(** The compact handler answers the first error of the SDK with its own
    500. *)
Lemma compact_sdk_failure multipart sdk host request stored parts file e :
  parsesTo multipart request parts →
  Storage.filePart parts = Some file →
  sdkFailure sdk (env_AzureWebJobsStorage host) (Js.str (filename file))
    (data file) = Some e →
  result (ApiIndex.handler multipart sdk host request stored) =
    inr (ApiIndex.object 500 (ApiIndex.uploadFailedBody e)).
Proof.
  intros Hparsed Hfile. unfold sdkFailure.
  enter_parsed Hparsed. rewrite Hfile. simpl.
  destruct (fromConnectionString_throws _ _); simpl; [congruence|].
  destruct (createIfNotExists_throws _ _); simpl; [congruence|].
  destruct (uploadData_throws _ _ _ _); simpl; congruence.
Qed.

(** ** The checks, in the order the handler makes them *)

(** C8. A request with no content-type header, under either spelling, is
    answered 400 with [success: false] and the error "Missing content-type
    header"; no later step runs: the body is neither read nor parsed, the
    blob SDK is not called, and the container is left as it was. *)
Theorem missing_content_type_400 multipart sdk host request stored :
  headers request !! "content-type" = None →
  headers request !! "Content-Type" = None →
  let r := Storage.handler multipart sdk host request stored in
  result r = inr (Storage.respond 400
               (failureBody "Missing content-type header" None None)) ∧
  List.filter isLaterStep (calls r) = [] ∧
  container r = stored.
Proof.
  intros Hl Hc. unfold Storage.handler, Storage.handlerM, Storage.handlerBody.
  rewrite Hl, Hc. unfold_effects. simpl. auto.
Qed.

Lemma missing_content_type_400_witness :
  let r := Storage.handler (Fixture.parser Fixture.form) Fixture.store
             Fixture.machine Fixture.bare ∅ in
  result r = inr (Storage.respond 400
               (failureBody "Missing content-type header" None None)) ∧
  List.filter isLaterStep (calls r) = [] ∧
  container r = ∅.
Proof.
  apply (missing_content_type_400 (Fixture.parser Fixture.form) Fixture.store
           Fixture.machine Fixture.bare ∅); reflexivity.
Defined.

(** C7. A request whose content-type header yields no boundary is answered
    400 with [success: false] and the error "Malformed content-type header:
    boundary not found", before the body is read or parsed. *)
Theorem boundary_not_found_400 multipart sdk host request stored contentType :
  contentTypeOf request = Some contentType →
  getBoundary multipart contentType = "" →
  let r := Storage.handler multipart sdk host request stored in
  result r = inr (Storage.respond 400 (failureBody
               "Malformed content-type header: boundary not found" None None)) ∧
  List.filter isLaterStep (calls r) = [] ∧
  container r = stored.
Proof.
  intros Hct Hb.
  unfold Storage.handler, Storage.handlerM, Storage.handlerBody.
  unfold contentTypeOf in Hct.
  destruct (Js.or_else _ _) as [[|c ct]|]; try discriminate Hct.
  cbn [Js.truthy] in Hct. injection Hct as <-.
  cbn [Js.truthy Js.str negb]. rewrite Hb. unfold_effects. simpl. auto.
Qed.

Lemma boundary_not_found_400_witness :
  let r := Storage.handler (Fixture.parser Fixture.form) Fixture.store
             Fixture.machine (Fixture.post "text/plain") ∅ in
  result r = inr (Storage.respond 400 (failureBody
               "Malformed content-type header: boundary not found" None None)) ∧
  List.filter isLaterStep (calls r) = [] ∧
  container r = ∅.
Proof.
  apply (boundary_not_found_400 (Fixture.parser Fixture.form) Fixture.store
           Fixture.machine (Fixture.post "text/plain") ∅ "text/plain");
    reflexivity.
Defined.

(** C6. When no part of a well-formed body carries a filename, the answer
    is 400 "No file uploaded"; when some part does, the first of them in
    parsed order is the selected file: the handler does not answer "No
    file uploaded", and any upload it issues carries that part's bytes. *)
Theorem no_file_uploaded_400 multipart sdk host request stored parts :
  parsesTo multipart request parts →
  let r := Storage.handler multipart sdk host request stored in
  let noFile := inr (Storage.respond 400
                  (failureBody "No file uploaded" None None)) in
  (Forall (λ p, ¬ hasFilename p) parts →
   result r = noFile ∧ uploads (calls r) = [] ∧ container r = stored) ∧
  (∀ before file after,
     parts = before ++ file :: after →
     Forall (λ p, ¬ hasFilename p) before → hasFilename file →
     Storage.filePart parts = Some file ∧
     result r ≠ noFile ∧
     ∀ e, e ∈ uploads (calls r) →
       ∃ blobName contentType md,
         e = EvUploadData "upload" blobName (data file) contentType md).
Proof.
  intros Hparsed r noFile. split.
  - intros Hnone. apply filePart_none in Hnone. subst r noFile.
    enter_parsed Hparsed. rewrite Hnone. simpl. auto.
  - intros before file after -> Hbefore Hfile.
    pose proof (filePart_first before file after Hbefore Hfile) as Hsel.
    split; [exact Hsel|]. split.
    + subst r noFile. enter_parsed Hparsed. rewrite Hsel. simpl.
      unfold Storage.connectionString. unfold_effects. split_run; discriminate.
    + apply (handler_uploads_selected _ _ _ _ _ _ _ Hparsed Hsel).
Qed.

Lemma no_file_uploaded_400_witness :
  let first := Fixture.upload "a.xlsx" "A" in
  let second := Fixture.upload "b.xlsx" "B" in
  result (Storage.handler (Fixture.parser Fixture.seven) Fixture.store
            Fixture.machine Fixture.multipartPost ∅) =
    inr (Storage.respond 400 (failureBody "No file uploaded" None None)) ∧
  Storage.filePart (Fixture.seven ++ [first; second]) = Some first.
Proof.
  intros first second. split.
  - apply (no_file_uploaded_400 (Fixture.parser Fixture.seven) Fixture.store
             Fixture.machine Fixture.multipartPost ∅ Fixture.seven).
    + fixture_parses.
    + decide_by_computing.
  - apply (no_file_uploaded_400
             (Fixture.parser (Fixture.seven ++ [first; second])) Fixture.store
             Fixture.machine Fixture.multipartPost ∅
             (Fixture.seven ++ [first; second]))
      with (before := Fixture.seven) (after := [second]).
    + fixture_parses.
    + reflexivity.
    + decide_by_computing.
    + reflexivity.
Defined.

(** C3. When the name of the selected file does not end in [.xlsx] or
    [.xls] (letter case apart), the answer is 400 with [success: false] and
    the error "Invalid file type. Only .xlsx and .xls files are allowed.";
    no upload call is made and the container is left as it was. *)
Theorem invalid_file_type_400 multipart sdk host request stored parts file :
  parsesTo multipart request parts →
  Storage.filePart parts = Some file →
  ¬ endsWithSpreadsheetExtension (Js.str (filename file)) →
  let r := Storage.handler multipart sdk host request stored in
  result r = inr (Storage.respond 400 (failureBody
    "Invalid file type. Only .xlsx and .xls files are allowed." None None)) ∧
  uploads (calls r) = [] ∧
  container r = stored.
Proof.
  intros Hparsed Hfile Hext. rewrite <- isExcelFile_spec in Hext.
  apply not_true_is_false in Hext.
  enter_parsed Hparsed. rewrite Hfile. simpl. rewrite Hext. simpl. auto.
Qed.

Lemma invalid_file_type_400_witness :
  let parts := Fixture.seven ++ [Fixture.upload "notes.txt" "hello"] in
  let r := Storage.handler (Fixture.parser parts) Fixture.store
             Fixture.machine Fixture.multipartPost ∅ in
  result r = inr (Storage.respond 400 (failureBody
    "Invalid file type. Only .xlsx and .xls files are allowed." None None)) ∧
  uploads (calls r) = [] ∧
  container r = ∅.
Proof.
  intros parts.
  apply (invalid_file_type_400 (Fixture.parser parts) Fixture.store
           Fixture.machine Fixture.multipartPost ∅ parts
           (Fixture.upload "notes.txt" "hello")).
  - fixture_parses.
  - reflexivity.
  - intros H. apply isExcelFile_spec in H. vm_compute in H. discriminate H.
Defined.

(** C2, as amended. When the request has parsed, its selected file part
    is a spreadsheet, and at least one of the seven required fields is
    absent or blank, the answer is 400 with [success: false], the error
    "Missing required fields" and, as [missingFields], exactly the required
    names that are absent or blank, in the order of the required list; no
    upload call is made. *)
Theorem missing_fields_400 multipart sdk host request stored parts file :
  parsesTo multipart request parts →
  Storage.filePart parts = Some file →
  endsWithSpreadsheetExtension (Js.str (filename file)) →
  Exists (λ k, absentOrBlank (submitted host parts k)) Storage.requiredFields →
  let r := Storage.handler multipart sdk host request stored in
  ∃ names,
    result r = inr (Storage.respond 400
      (failureBody "Missing required fields" None (Some names))) ∧
    names = List.filter
              (λ k, bool_decide (absentOrBlank (submitted host parts k)))
              Storage.requiredFields ∧
    (∀ k, k ∈ names ↔
          k ∈ Storage.requiredFields ∧ absentOrBlank (submitted host parts k)) ∧
    uploads (calls r) = [] ∧
    container r = stored.
Proof.
  intros Hparsed Hfile Hext Hmissing.
  apply isExcelFile_spec in Hext. apply missing_cons in Hmissing.
  exists (Storage.missing (Storage.collectFields host parts)).
  enter_parsed Hparsed. rewrite Hfile. simpl. rewrite Hext. simpl.
  rewrite Hmissing. simpl. rewrite missing_submitted.
  split; [reflexivity|]. split; [reflexivity|]. split; [|auto].
  intros k. rewrite !list_elem_of_In, filter_In, bool_decide_eq_true.
  reflexivity.
Qed.

Lemma missing_fields_400_witness :
  let parts := [Fixture.field "company" "Acme"; Fixture.field "unit" "  ";
                Fixture.upload "report.xlsx" "PK"] in
  let r := Storage.handler (Fixture.parser parts) Fixture.store
             Fixture.machine Fixture.multipartPost ∅ in
  result r = inr (Storage.respond 400
    (failureBody "Missing required fields" None
       (Some ["business_unit"; "location"; "time_period"; "esg_topic";
              "esg_metric"; "unit"]))) ∧
  uploads (calls r) = [].
Proof.
  intros parts.
  destruct (missing_fields_400 (Fixture.parser parts) Fixture.store
              Fixture.machine Fixture.multipartPost ∅ parts
              (Fixture.upload "report.xlsx" "PK"))
    as (names & Hresult & Hnames & _ & Huploads & _).
  - fixture_parses.
  - reflexivity.
  - apply isExcelFile_spec. reflexivity.
  - decide_by_computing.
  - split; [|exact Huploads]. rewrite Hresult, Hnames. reflexivity.
Defined.

(** C2 as stated fails on parsed requests that the file checks turn away
    first: without a file part, or with a file that is not a spreadsheet,
    the 400 names the file and carries no [missingFields], whatever fields
    are missing. *)
Lemma missing_fields_need_a_spreadsheet :
  let noFile := [Fixture.field "company" "Acme"] in
  let notes := [Fixture.field "company" "Acme";
                Fixture.upload "notes.txt" "hello"] in
  let r1 := Storage.handler (Fixture.parser noFile) Fixture.store
              Fixture.machine Fixture.multipartPost ∅ in
  let r2 := Storage.handler (Fixture.parser notes) Fixture.store
              Fixture.machine Fixture.multipartPost ∅ in
  (parsesTo (Fixture.parser noFile) Fixture.multipartPost noFile ∧
   Exists (λ k, absentOrBlank (submitted Fixture.machine noFile k))
     Storage.requiredFields ∧
   result r1 = inr (Storage.respond 400
                 (failureBody "No file uploaded" None None)) ∧
   ¬ listsMissingFields r1) ∧
  (parsesTo (Fixture.parser notes) Fixture.multipartPost notes ∧
   Exists (λ k, absentOrBlank (submitted Fixture.machine notes k))
     Storage.requiredFields ∧
   result r2 = inr (Storage.respond 400 (failureBody
     "Invalid file type. Only .xlsx and .xls files are allowed." None None)) ∧
   ¬ listsMissingFields r2).
Proof.
  split; (split; [fixture_parses|]); (split; [decide_by_computing|]);
    (split; [reflexivity|]);
    intros (resp & j & names & Hresult & _ & Hj & _ & Hnames);
    vm_compute in Hresult; injection Hresult as <-;
    vm_compute in Hj; injection Hj as <-; discriminate Hnames.
Qed.



(** ** The upload *)

(** C5, as amended. When the blob SDK throws while a valid submission is
    uploaded, the answer is 500 with the thrown message in [details].  The
    full handler also sets [success: false]; the compact handler of
    [api/index.js] answers [{ error: 'Failed to upload file', details }],
    which has no [success] property. *)
Theorem upload_failure_500 multipart sdk host request stored parts file e :
  (∀ cs,
     validSubmission multipart host request parts file →
     credential host cs →
     sdkFailure sdk (Some cs)
       (Storage.uniqueFilename (Storage.collectFields host parts) (now host 0)
          (Js.pop (Js.splitDot (Js.str (filename file)))))
       (data file) = Some e →
     let r := Storage.handler multipart sdk host request stored in
     result r = inr (Storage.respond 500 (failureBody "Internal server error"
                  (Some (JsError.message e)) None)) ∧
     reports500 r (JsError.message e)) ∧
  (parsesTo multipart request parts →
   Storage.filePart parts = Some file →
   sdkFailure sdk (env_AzureWebJobsStorage host) (Js.str (filename file))
     (data file) = Some e →
   ∃ resp j,
     result (ApiIndex.handler multipart sdk host request stored) = inr resp ∧
     status resp = 500 ∧ jsonOf resp = Some j ∧
     success j = None ∧
     error j = Some "Failed to upload file" ∧
     details j = Some (JsError.message e)).
Proof.
  split.
  - intros cs Hvalid Hcred Hfail r.
    pose proof (handler_sdk_outcome multipart sdk host request stored parts
                  file cs Hvalid Hcred) as H.
    cbv zeta in H. rewrite Hfail in H. destruct H as [H _].
    split; [exact H|]. subst r. unfold reports500. rewrite H.
    eexists _, _. repeat split.
  - intros Hparsed Hfile Hfail.
    rewrite (compact_sdk_failure _ _ _ _ _ _ _ _ Hparsed Hfile Hfail).
    eexists _, _. repeat split.
Qed.

Lemma upload_failure_500_witness :
  reports500 (Storage.handler (Fixture.parser Fixture.form) Fixture.fullStore
                Fixture.machine Fixture.multipartPost ∅) "quota exceeded" ∧
  ∃ resp j,
    result (ApiIndex.handler (Fixture.parser Fixture.form) Fixture.fullStore
              Fixture.machine Fixture.multipartPost ∅) = inr resp ∧
    status resp = 500 ∧ jsonOf resp = Some j ∧ success j = None ∧
    error j = Some "Failed to upload file" ∧
    details j = Some "quota exceeded".
Proof.
  destruct (upload_failure_500 (Fixture.parser Fixture.form) Fixture.fullStore
              Fixture.machine Fixture.multipartPost ∅ Fixture.form
              (Fixture.upload "report.xlsx" "PK") Fixture.quota)
    as [Hfull Hcompact].
  split.
  - apply (Hfull "UseDevelopmentStorage=true").
    + split; [fixture_parses|]. split; [reflexivity|].
      split; [apply isExcelFile_spec; reflexivity | decide_by_computing].
    + split; [discriminate | left; reflexivity].
    + reflexivity.
  - apply Hcompact; [fixture_parses | reflexivity | reflexivity].
Defined.

(** C5 as stated fails on the compact handler: its 500 carries the thrown
    message in [details] but no [success: false]. *)
Lemma compact_upload_failure_lacks_success :
  let r := ApiIndex.handler (Fixture.parser Fixture.form) Fixture.fullStore
             Fixture.machine Fixture.multipartPost ∅ in
  result r = inr (ApiIndex.object 500 (ApiIndex.uploadFailedBody Fixture.quota)) ∧
  ¬ reports500 r "quota exceeded".
Proof.
  split; [reflexivity|].
  intros (resp & j & Hresult & _ & Hj & Hsuccess & _).
  vm_compute in Hresult. injection Hresult as <-.
  vm_compute in Hj. injection Hj as <-. discriminate Hsuccess.
Qed.




(** The value of [unit] comes back with its surrounding spaces. *)
Example valid_upload_echoes_untrimmed :
  match result (Storage.handler (Fixture.parser Fixture.form) Fixture.store
                  Fixture.machine Fixture.multipartPost ∅) with
  | inr resp => j ← jsonOf resp; m ← metadata j; m !! "unit"
  | inl _ => None
  end = Some " kWh ".
Proof. vm_compute. reflexivity. Qed.



(** ** The fields collection loop *)


Lemma find_app_skip {A} (f : A → bool) l l' :
  Forall (λ x, f x = false) l → List.find f (l ++ l') = List.find f l'.
Proof. induction 1 as [|x l Hx _ IH]; simpl; [|rewrite Hx]; auto. Qed.



(** * Further properties of the handlers *)

(** ** The full handler, whatever the request *)

(** Run the handler on any request, splitting on every test it makes. *)
Ltac run_any :=
  unfold Storage.handler, Storage.handlerM, Storage.handlerBody,
    Storage.connectionString;
  unfold_effects; split_run.

(** X1. The full handler never rejects: whatever the request, the parser,
    the SDK and the host do, it resolves with a [jsonBody] response whose
    status is 200, 400 or 500, whose [success] is [true] exactly when the
    status is 200, and which names an [error] exactly when it is not. *)
Theorem handler_always_answers multipart sdk host request stored :
  ∃ resp j,
    result (Storage.handler multipart sdk host request stored) = inr resp ∧
    jsonBody resp = Some j ∧ body resp = None ∧
    (status resp = 200 ∨ status resp = 400 ∨ status resp = 500) ∧
    success j = Some (bool_decide (status resp = 200)) ∧
    (is_Some (error j) ↔ status resp ≠ 200).
Proof.
  run_any; eexists _, _; (split; [reflexivity|]); (split; [reflexivity|]);
    (split; [reflexivity|]); (split; [auto|]); (split; [reflexivity|]);
    simpl; split;
    first [ by intros [? [=]] | by intros H; destruct H
          | by intros _; eexists | discriminate ].
Qed.

(** Membership of an event in a trace that has been computed. *)
Ltac in_trace H :=
  repeat (apply elem_of_cons in H as [H|H]; [try discriminate H|]);
  try (apply elem_of_nil in H; contradiction).

(** X2. When the parser throws on the body, the inner [catch] answers 400
    with [success: false], the error "Failed to parse multipart data" and
    the parser's message in [details]; the blob SDK is not called and the
    container is left as it was. *)
Theorem parse_failure_400 multipart sdk host request stored contentType
    bodyBuffer e :
  contentTypeOf request = Some contentType →
  getBoundary multipart contentType ≠ "" →
  arrayBuffer request = inr bodyBuffer →
  Parse multipart bodyBuffer (getBoundary multipart contentType) = inl e →
  let r := Storage.handler multipart sdk host request stored in
  result r = inr (Storage.respond 400 (failureBody
    "Failed to parse multipart data" (Some (JsError.message e)) None)) ∧
  sdkCalls (calls r) = [] ∧
  container r = stored.
Proof.
  intros Hct Hb Hbuf Hparse.
  unfold Storage.handler, Storage.handlerM, Storage.handlerBody.
  unfold contentTypeOf in Hct.
  destruct (Js.or_else _ _) as [[|c ct]|]; try discriminate Hct.
  cbn [Js.truthy] in Hct. injection Hct as <-.
  cbn [Js.truthy Js.str negb].
  destruct (getBoundary _ _) as [|? ?] eqn:?; [congruence|].
  cbn [Js.truthy Js.str negb]. rewrite Hbuf. unfold_effects. simpl.
  rewrite Hparse. simpl. auto.
Qed.

Lemma parse_failure_400_witness :
  let r := Storage.handler Scenario.brokenParser Fixture.store Fixture.machine
             Fixture.multipartPost ∅ in
  result r = inr (Storage.respond 400 (failureBody
    "Failed to parse multipart data"
    (Some "Unexpected end of multipart data") None)) ∧
  sdkCalls (calls r) = [] ∧
  container r = ∅.
Proof.
  apply (parse_failure_400 Scenario.brokenParser Fixture.store Fixture.machine
           Fixture.multipartPost ∅ "multipart/form-data; boundary=XyZ"
           (Fixture.bytes "raw") Scenario.truncated);
    (reflexivity || discriminate).
Defined.

(** X3. When the body cannot be read, the error reaches the outer [catch]:
    the answer is 500 with [success: false], "Internal server error" and
    the error's message in [details]; the parser and the blob SDK are never
    called. *)
Theorem body_read_failure_500 multipart sdk host request stored contentType e :
  contentTypeOf request = Some contentType →
  getBoundary multipart contentType ≠ "" →
  arrayBuffer request = inl e →
  let r := Storage.handler multipart sdk host request stored in
  result r = inr (Storage.respond 500 (failureBody "Internal server error"
               (Some (JsError.message e)) None)) ∧
  (∀ b boundary, EvParse b boundary ∉ calls r) ∧
  sdkCalls (calls r) = [] ∧
  container r = stored.
Proof.
  intros Hct Hb Hbuf.
  unfold Storage.handler, Storage.handlerM, Storage.handlerBody.
  unfold contentTypeOf in Hct.
  destruct (Js.or_else _ _) as [[|c ct]|]; try discriminate Hct.
  cbn [Js.truthy] in Hct. injection Hct as <-.
  cbn [Js.truthy Js.str negb].
  destruct (getBoundary _ _) as [|? ?] eqn:?; [congruence|].
  cbn [Js.truthy Js.str negb]. rewrite Hbuf. unfold_effects. simpl.
  split; [reflexivity|]. split; [|auto].
  intros b boundary H. in_trace H.
Qed.

Lemma body_read_failure_500_witness :
  let r := Storage.handler (Fixture.parser Fixture.form) Fixture.store
             Fixture.machine Scenario.unreadable ∅ in
  result r = inr (Storage.respond 500 (failureBody "Internal server error"
               (Some "aborted") None)) ∧
  (∀ b boundary, EvParse b boundary ∉ calls r) ∧
  sdkCalls (calls r) = [] ∧
  container r = ∅.
Proof.
  apply (body_read_failure_500 (Fixture.parser Fixture.form) Fixture.store
           Fixture.machine Scenario.unreadable ∅
           "multipart/form-data; boundary=XyZ" Scenario.aborted);
    (reflexivity || discriminate).
Defined.

(** X4. A request that is turned away with a 400 never reaches the store:
    whenever the answer is 400, no call to the blob SDK was made and the
    container is as it was. *)
Theorem rejected_request_never_reaches_store
    multipart sdk host request stored resp :
  let r := Storage.handler multipart sdk host request stored in
  result r = inr resp → status resp = 400 →
  sdkCalls (calls r) = [] ∧ container r = stored.
Proof.
  run_any; intros [= <-] Hstatus; try discriminate Hstatus; auto.
Qed.

Lemma rejected_request_never_reaches_store_witness :
  let r := Storage.handler (Fixture.parser Scenario.blankUnit) Fixture.store
             Fixture.machine Fixture.multipartPost ∅ in
  sdkCalls (calls r) = [] ∧ container r = ∅.
Proof.
  apply (rejected_request_never_reaches_store
           (Fixture.parser Scenario.blankUnit) Fixture.store Fixture.machine
           Fixture.multipartPost ∅
           (Storage.respond 400 (failureBody "Missing required fields" None
              (Some ["unit"]))));
    reflexivity.
Defined.

(** X5. The blob SDK is called in one order only, and at most once each:
    the calls of a run are a prefix of connect, [createIfNotExists] on the
    container [upload], one [uploadData] into that container; and the
    connection string handed to the SDK is never empty or undefined. *)
Theorem sdk_calls_in_order multipart sdk host request stored :
  let r := Storage.handler multipart sdk host request stored in
  sdkCalls (calls r) = [] ∨
  ∃ cs, Js.truthy cs = true ∧
    (sdkCalls (calls r) = [EvFromConnectionString cs] ∨
     sdkCalls (calls r) =
       [EvFromConnectionString cs; EvCreateIfNotExists "upload"] ∨
     ∃ blobName content contentType md,
       sdkCalls (calls r) =
         [EvFromConnectionString cs; EvCreateIfNotExists "upload";
          EvUploadData "upload" blobName content contentType md]).
Proof.
  run_any; try (left; reflexivity); right;
    match goal with
    | H : negb (Js.truthy ?cs) = false |- _ =>
        exists cs; split; [apply negb_false_iff, H|]
    end; eauto 10.
Qed.

(** ** Where the credential comes from *)

(** X6. The environment comes first: when [AzureWebJobsStorage] is set
    there, the settings file is neither looked for nor read, and the only
    connection string ever handed to the SDK is the environment's. *)
Theorem environment_credential_first multipart sdk host request stored :
  Js.truthy (env_AzureWebJobsStorage host) = true →
  let r := Storage.handler multipart sdk host request stored in
  (EvExistsSync ∉ calls r) ∧ (EvReadSettings ∉ calls r) ∧
  ∀ cs, EvFromConnectionString cs ∈ calls r →
        cs = env_AzureWebJobsStorage host.
Proof.
  intros Henv. run_any; try congruence;
    (split; [intros H; in_trace H|]); (split; [intros H; in_trace H|]);
    intros cs H; in_trace H; congruence.
Qed.

Lemma environment_credential_first_witness :
  let r := Storage.handler (Fixture.parser Fixture.form) Fixture.store
             Fixture.machine Fixture.multipartPost ∅ in
  (EvExistsSync ∉ calls r) ∧ (EvReadSettings ∉ calls r) ∧
  ∀ cs, EvFromConnectionString cs ∈ calls r →
        cs = Some "UseDevelopmentStorage=true".
Proof.
  apply (environment_credential_first (Fixture.parser Fixture.form)
           Fixture.store Fixture.machine Fixture.multipartPost ∅).
  reflexivity.
Defined.

(** X7. Without the environment variable, a valid submission makes the
    handler look for the settings file and read it, and the SDK is
    connected with the value found there, before the container is ensured
    and the file uploaded. *)
Theorem settings_file_fallback
    multipart sdk host request stored parts file cs :
  validSubmission multipart host request parts file →
  Js.truthy (env_AzureWebJobsStorage host) = false →
  localSettings host = Settings (Some cs) → cs ≠ "" →
  let r := Storage.handler multipart sdk host request stored in
  ∃ before after,
    calls r = before ++ EvExistsSync :: EvReadSettings ::
              EvFromConnectionString (Some cs) :: after ∧
    sdkCalls before = [].
Proof.
  intros (Hparsed & Hfile & Hext & Hfields) Henv Hset Hcs.
  apply isExcelFile_spec in Hext. apply missing_nil in Hfields.
  enter_parsed Hparsed. rewrite Hfile. simpl. rewrite Hext. simpl.
  rewrite Hfields. simpl. unfold Storage.connectionString.
  rewrite Henv, Hset. destruct cs as [|c cs']; [congruence|].
  unfold_effects. simpl. split_run;
    (eexists (_ :: _ :: _ :: _ :: _ :: _ :: _ :: _ :: []), _;
     split; [reflexivity|reflexivity]).
Qed.

Lemma settings_file_fallback_witness :
  let r := Storage.handler (Fixture.parser Fixture.form) Fixture.store
             Scenario.localMachine Fixture.multipartPost ∅ in
  ∃ before after,
    calls r = before ++ EvExistsSync :: EvReadSettings ::
              EvFromConnectionString (Some "UseDevelopmentStorage=true") ::
              after ∧
    sdkCalls before = [].
Proof.
  apply (settings_file_fallback (Fixture.parser Fixture.form) Fixture.store
           Scenario.localMachine Fixture.multipartPost ∅ Fixture.form
           (Fixture.upload "report.xlsx" "PK") "UseDevelopmentStorage=true").
  - split; [fixture_parses|]. split; [reflexivity|].
    split; [apply isExcelFile_spec; reflexivity | decide_by_computing].
  - reflexivity.
  - reflexivity.
  - discriminate.
Defined.

(** X8. When the environment variable is missing and reading or parsing the
    settings file throws, a valid submission is answered 500 "Internal
    server error" with the thrown message in [details] (not "Azure Storage
    configuration not found"), and the blob SDK is not called. *)
Theorem settings_file_unreadable_500
    multipart sdk host request stored parts file e :
  validSubmission multipart host request parts file →
  Js.truthy (env_AzureWebJobsStorage host) = false →
  localSettings host = SettingsThrow e →
  let r := Storage.handler multipart sdk host request stored in
  result r = inr (Storage.respond 500 (failureBody "Internal server error"
               (Some (JsError.message e)) None)) ∧
  sdkCalls (calls r) = [] ∧
  container r = stored.
Proof.
  intros (Hparsed & Hfile & Hext & Hfields) Henv Hset.
  apply isExcelFile_spec in Hext. apply missing_nil in Hfields.
  enter_parsed Hparsed. rewrite Hfile. simpl. rewrite Hext. simpl.
  rewrite Hfields. simpl. unfold Storage.connectionString.
  rewrite Henv, Hset. unfold_effects. simpl. auto.
Qed.

Lemma settings_file_unreadable_500_witness :
  let r := Storage.handler (Fixture.parser Fixture.form) Fixture.store
             Scenario.brokenSettings Fixture.multipartPost ∅ in
  result r = inr (Storage.respond 500 (failureBody "Internal server error"
               (Some "Unexpected token } in JSON") None)) ∧
  sdkCalls (calls r) = [] ∧
  container r = ∅.
Proof.
  apply (settings_file_unreadable_500 (Fixture.parser Fixture.form)
           Fixture.store Scenario.brokenSettings Fixture.multipartPost ∅
           Fixture.form (Fixture.upload "report.xlsx" "PK") Scenario.badJson).
  - split; [fixture_parses|]. split; [reflexivity|].
    split; [apply isExcelFile_spec; reflexivity | decide_by_computing].
  - reflexivity.
  - reflexivity.
Defined.

(** ** Extension, content type and key *)

Lemma append_nil_r s : s +:+ "" = s.
Proof. induction s as [|a s IH]; [reflexivity|]. rewrite append_cons, IH. reflexivity. Qed.

Lemma append_assoc s t u : (s +:+ t) +:+ u = s +:+ (t +:+ u).
Proof.
  induction s as [|a s IH]; [reflexivity|]. rewrite !append_cons, IH.
  reflexivity.
Qed.

Lemma rev_app_rev_app s t u :
  String.rev_app (String.rev_app s t) u = String.rev_app t (s +:+ u).
Proof.
  revert t. induction s as [|a s IH]; intros t; [reflexivity|].
  simpl. rewrite IH. reflexivity.
Qed.

Lemma splitDot_go_free cur s :
  free "."%char s →
  Js.splitDot_go cur s = [String.rev (String.rev_app s cur)].
Proof.
  revert cur. induction s as [|c s IH]; intros cur Hs; [reflexivity|].
  destruct Hs as [Hc Hs]. simpl.
  destruct (Ascii.eqb_spec c "."%char) as [->|_]; [contradiction|].
  apply IH, Hs.
Qed.

Lemma pop_cons x l : l ≠ [] → Js.pop (x :: l) = Js.pop l.
Proof. destruct l; [contradiction | reflexivity]. Qed.

Lemma splitDot_go_nonempty cur s : Js.splitDot_go cur s ≠ [].
Proof.
  intros H. pose proof (pop_splitDot_go cur s) as [x Hx].
  rewrite H in Hx. discriminate Hx.
Qed.

(** The last segment of [stem.ext] is [ext], when [ext] has no dot. *)
Lemma pop_splitDot_go_ext cur stem ext :
  free "."%char ext →
  Js.pop (Js.splitDot_go cur (stem +:+ "." +:+ ext)) = Some ext.
Proof.
  intros Hext. revert cur.
  induction stem as [|a stem IH]; intros cur.
  - rewrite append_nil. change ("." +:+ ext) with (String "."%char ext).
    simpl. rewrite splitDot_go_free by exact Hext.
    unfold String.rev. rewrite rev_app_rev_app. simpl.
    rewrite append_nil_r. reflexivity.
  - rewrite append_cons. simpl. destruct (Ascii.eqb a "."%char).
    + rewrite pop_cons by apply splitDot_go_nonempty. apply IH.
    + apply IH.
Qed.

Lemma pop_splitDot_ext stem ext :
  free "."%char ext →
  Js.pop (Js.splitDot (stem +:+ "." +:+ ext)) = Some ext.
Proof. apply pop_splitDot_go_ext. Qed.

Lemma toLowerCaseChar_dot c :
  Js.toLowerCaseChar c = "."%char → c = "."%char.
Proof.
  destruct c as [[] [] [] [] [] [] [] []]; vm_compute; congruence.
Qed.

Lemma free_dot_lower s :
  free "."%char (Js.toLowerCase s) → free "."%char s.
Proof.
  induction s as [|c s IH]; [auto|]. simpl. intros [Hc Hs].
  split; [|auto]. intros ->. apply Hc. reflexivity.
Qed.

Lemma spreadsheet_extension_free ext :
  Js.toLowerCase ext = "xlsx" ∨ Js.toLowerCase ext = "xls" →
  free "."%char ext.
Proof.
  intros H. apply free_dot_lower.
  destruct H as [-> | ->]; simpl; repeat split; discriminate.
Qed.

(** X9. For a file name that passes the extension test, the extension the
    handler takes ([name.split('.').pop()]) is what follows the last dot;
    lower-cased it is [xlsx] or [xls], so the blob content type is the
    matching spreadsheet type and never the [application/octet-stream]
    fallback. *)
Theorem accepted_name_content_type s :
  Storage.isExcelFile s = true →
  ∃ stem ext,
    s = stem +:+ "." +:+ ext ∧ free "."%char ext ∧
    Js.pop (Js.splitDot s) = Some ext ∧
    ((Js.toLowerCase ext = "xlsx" ∧
      Storage.fileContentType ext =
        "application/vnd.openxmlformats-officedocument.spreadsheetml.sheet") ∨
     (Js.toLowerCase ext = "xls" ∧
      Storage.fileContentType ext = "application/vnd.ms-excel")).
Proof.
  intros H. apply isExcelFile_spec in H as (stem & ext & -> & Hext).
  pose proof (spreadsheet_extension_free ext Hext) as Hfree.
  exists stem, ext. split; [reflexivity|]. split; [exact Hfree|].
  split; [apply pop_splitDot_ext, Hfree|].
  unfold Storage.fileContentType.
  destruct Hext as [Hx | Hx]; [left | right]; rewrite Hx; split; reflexivity.
Qed.

Lemma accepted_name_content_type_witness :
  ∃ stem ext,
    "Q1.report.XLS" = stem +:+ "." +:+ ext ∧ free "."%char ext ∧
    Js.pop (Js.splitDot "Q1.report.XLS") = Some ext ∧
    ((Js.toLowerCase ext = "xlsx" ∧
      Storage.fileContentType ext =
        "application/vnd.openxmlformats-officedocument.spreadsheetml.sheet") ∨
     (Js.toLowerCase ext = "xls" ∧
      Storage.fileContentType ext = "application/vnd.ms-excel")).
Proof. apply (accepted_name_content_type "Q1.report.XLS"). reflexivity. Defined.

(** X10. The generated key keeps the extension of the uploaded file, as
    typed: whatever the company and the clock reading, the key of an
    accepted file name passes the extension test itself, and its last
    segment is the last segment of the file name. *)
Theorem key_keeps_extension fields date s :
  Storage.isExcelFile s = true →
  let key := Storage.uniqueFilename fields date (Js.pop (Js.splitDot s)) in
  Storage.isExcelFile key = true ∧
  Js.pop (Js.splitDot key) = Js.pop (Js.splitDot s).
Proof.
  intros H. apply isExcelFile_spec in H as (stem & ext & -> & Hext).
  pose proof (spreadsheet_extension_free ext Hext) as Hfree.
  rewrite (pop_splitDot_ext stem ext Hfree). cbv zeta.
  unfold Storage.uniqueFilename. cbn [Js.str].
  set (company := Js.str (fields !! "company")).
  set (timestamp := Js.replaceColonDot (JsDate.toISOString date)).
  replace (company +:+ "_" +:+ timestamp +:+ "." +:+ ext)
    with ((company +:+ "_" +:+ timestamp) +:+ "." +:+ ext)
    by (rewrite !append_assoc; reflexivity).
  split.
  - apply isExcelFile_spec. exists (company +:+ "_" +:+ timestamp), ext. auto.
  - apply pop_splitDot_ext, Hfree.
Qed.

Lemma key_keeps_extension_witness :
  let fields : gmap string string := {[ "company" := "Acme Ltd." ]} in
  let key := Storage.uniqueFilename fields (Fixture.clock 7)
               (Js.pop (Js.splitDot "Q1.report.XLS")) in
  Storage.isExcelFile key = true ∧
  Js.pop (Js.splitDot key) = Js.pop (Js.splitDot "Q1.report.XLS").
Proof.
  intros fields.
  apply (key_keeps_extension fields (Fixture.clock 7) "Q1.report.XLS").
  reflexivity.
Defined.



(** ** What is stored, and what is answered *)



(** ** Blank values *)

Lemma trimStart_empty s : Js.trimStart s = "" ↔ allWhiteSpace s.
Proof.
  induction s as [|c s IH]; simpl; [tauto|].
  destruct (Js.isWhiteSpace c); [rewrite IH; tauto|].
  split; [discriminate | intros [[=] _]].
Qed.

Lemma allWhiteSpace_rev_app s t :
  allWhiteSpace (String.rev_app s t) ↔ allWhiteSpace s ∧ allWhiteSpace t.
Proof.
  revert t. induction s as [|c s IH]; intros t; simpl; [tauto|].
  rewrite IH. simpl. tauto.
Qed.

Lemma allWhiteSpace_rev s : allWhiteSpace (String.rev s) ↔ allWhiteSpace s.
Proof. unfold String.rev. rewrite allWhiteSpace_rev_app. simpl. tauto. Qed.

Lemma rev_app_empty s t : String.rev_app s t = "" → s = "" ∧ t = "".
Proof.
  revert t. induction s as [|c s IH]; intros t; simpl; [auto|].
  intros H. apply IH in H as [_ [=]].
Qed.

(** What [trimStart] leaves is empty or starts with a character that is
    not white space. *)
Lemma trimStart_allWhiteSpace s :
  allWhiteSpace (Js.trimStart s) → Js.trimStart s = "".
Proof.
  induction s as [|c s IH]; simpl; [auto|].
  destruct (Js.isWhiteSpace c) eqn:Hc; [exact IH|].
  intros [H _]. simpl in H. congruence.
Qed.

Lemma trim_empty s : Js.trim s = "" ↔ allWhiteSpace s.
Proof.
  unfold Js.trim, Js.trimEnd. split.
  - intros H. apply rev_app_empty in H as [H _].
    apply (proj1 (trimStart_empty _)) in H.
    apply (proj1 (allWhiteSpace_rev _)) in H.
    apply trimStart_empty, trimStart_allWhiteSpace, H.
  - intros H. apply trimStart_empty in H. rewrite H. reflexivity.
Qed.

Lemma missing_means_absent_or_white_aux fields k :
  Storage.isMissing fields k = true ↔
  fields !! k = None ∨ ∃ v, fields !! k = Some v ∧ allWhiteSpace v.
Proof.
  rewrite isMissing_spec. unfold absentOrBlank.
  destruct (fields !! k) as [v|]; [|tauto].
  rewrite trim_empty. split.
  - intros H. right. eauto.
  - intros [[=]|(v' & [= <-] & H)]. exact H.
Qed.

(** X13. A required field is reported in [missingFields] exactly when it
    was not submitted or its value consists of white space only (the empty
    value included); a value with any other character in it is accepted,
    however much white space surrounds it. *)
Theorem missing_means_absent_or_white fields k :
  k ∈ Storage.missing fields ↔
  k ∈ Storage.requiredFields ∧
  (fields !! k = None ∨ ∃ v, fields !! k = Some v ∧ allWhiteSpace v).
Proof.
  unfold Storage.missing.
  rewrite !list_elem_of_In, filter_In, missing_means_absent_or_white_aux.
  reflexivity.
Qed.

(** ** The compact handler of [src/api/index.js] *)

Ltac run_compact :=
  unfold ApiIndex.handler, ApiIndex.handlerM; unfold_effects; split_run.

(** What the compact handler does with a parsed request that has a file
    part: the first error of the SDK as its 500, or else the upload under
    the file's own name and a 200. *)
Lemma compact_outcome multipart sdk host request stored parts file :
  parsesTo multipart request parts →
  Storage.filePart parts = Some file →
  let blobName := Js.str (filename file) in
  let contentType :=
    Js.str (Js.or_else (type file) (Some "application/octet-stream")) in
  let r := ApiIndex.handler multipart sdk host request stored in
  match sdkFailure sdk (env_AzureWebJobsStorage host) blobName (data file) with
  | Some e =>
      result r = inr (ApiIndex.object 500 (ApiIndex.uploadFailedBody e))
  | None =>
      result r = inr (ApiIndex.object 200 (ApiIndex.uploadedBody blobName
        (blob_url sdk (env_AzureWebJobsStorage host) "upload" blobName)
        (ApiIndex.collectFields host parts))) ∧
      uploads (calls r) =
        [EvUploadData "upload" blobName (data file) contentType ∅] ∧
      container r = <[blobName := mkBlob (data file) contentType ∅]> stored
  end.
Proof.
  intros Hparsed Hfile. unfold sdkFailure. cbv zeta.
  enter_parsed Hparsed. rewrite Hfile. simpl.
  destruct (fromConnectionString_throws _ _); simpl; [reflexivity|].
  destruct (createIfNotExists_throws _ _); simpl; [reflexivity|].
  destruct (uploadData_throws _ _ _ _); simpl; [reflexivity|]. auto.
Qed.



(** X15. With the compact handler a second upload of a file of the same
    name replaces the first: the blob is stored under the file name, so
    after both requests the container holds the second file's bytes under
    that name and has no more entries than after the first. *)
Theorem compact_upload_overwrites
    multipart1 multipart2 sdk host request1 request2 stored
    parts1 parts2 file1 file2 :
  parsesTo multipart1 request1 parts1 →
  Storage.filePart parts1 = Some file1 →
  parsesTo multipart2 request2 parts2 →
  Storage.filePart parts2 = Some file2 →
  Js.str (filename file1) = Js.str (filename file2) →
  let blobName := Js.str (filename file2) in
  sdkFailure sdk (env_AzureWebJobsStorage host) blobName (data file1) = None →
  sdkFailure sdk (env_AzureWebJobsStorage host) blobName (data file2) = None →
  let r1 := ApiIndex.handler multipart1 sdk host request1 stored in
  let r2 := ApiIndex.handler multipart2 sdk host request2 (container r1) in
  blob_data <$> container r1 !! blobName = Some (data file1) ∧
  blob_data <$> container r2 !! blobName = Some (data file2) ∧
  dom (container r2) = dom (container r1).
Proof.
  intros Hp1 Hf1 Hp2 Hf2 Hname blobName Hok1 Hok2 r1 r2.
  pose proof (compact_outcome multipart1 sdk host request1 stored parts1
                file1 Hp1 Hf1) as H1.
  cbv zeta in H1. rewrite Hname in H1. fold blobName in H1.
  rewrite Hok1 in H1. destruct H1 as (_ & _ & Hc1).
  pose proof (compact_outcome multipart2 sdk host request2 (container r1)
                parts2 file2 Hp2 Hf2) as H2.
  cbv zeta in H2. fold blobName in H2. rewrite Hok2 in H2.
  destruct H2 as (_ & _ & Hc2).
  fold r1 in Hc1. fold r2 in Hc2. rewrite Hc2, Hc1.
  rewrite !lookup_insert_eq. split; [reflexivity|]. split; [reflexivity|].
  rewrite insert_insert_eq. rewrite !dom_insert_L. reflexivity.
Qed.

Lemma compact_upload_overwrites_witness :
  let first := [Fixture.upload "report.xlsx" "old"] in
  let second := [Fixture.upload "report.xlsx" "new"] in
  let r1 := ApiIndex.handler (Fixture.parser first) Fixture.store
              Fixture.machine Fixture.multipartPost ∅ in
  let r2 := ApiIndex.handler (Fixture.parser second) Fixture.store
              Fixture.machine Fixture.multipartPost (container r1) in
  blob_data <$> container r1 !! "report.xlsx" = Some (Fixture.bytes "old") ∧
  blob_data <$> container r2 !! "report.xlsx" = Some (Fixture.bytes "new") ∧
  dom (container r2) = dom (container r1).
Proof.
  intros first second.
  apply (compact_upload_overwrites (Fixture.parser first)
           (Fixture.parser second) Fixture.store Fixture.machine
           Fixture.multipartPost Fixture.multipartPost ∅ first second
           (Fixture.upload "report.xlsx" "old")
           (Fixture.upload "report.xlsx" "new"));
    first [fixture_parses | reflexivity].
Defined.

(** X16. The compact handler answers [{ status, body }], never
    [jsonBody]; its 400s carry a plain string as body, and are returned
    before any call to the blob SDK, the container untouched. *)
Theorem compact_rejections_are_text multipart sdk host request stored resp :
  let r := ApiIndex.handler multipart sdk host request stored in
  result r = inr resp →
  jsonBody resp = None ∧
  (status resp = 200 ∨ status resp = 400 ∨ status resp = 500) ∧
  (status resp = 400 →
   (∃ s, body resp = Some (Text s)) ∧
   sdkCalls (calls r) = [] ∧ container r = stored).
Proof.
  run_compact; intros [= <-]; (split; [reflexivity|]); (split; [auto|]);
    intros Hstatus; try discriminate Hstatus; eauto.
Qed.

Lemma compact_rejections_are_text_witness :
  let r := ApiIndex.handler (Fixture.parser Fixture.seven) Fixture.store
             Fixture.machine Fixture.multipartPost ∅ in
  result r = inr (ApiIndex.text 400 "No file uploaded") ∧
  sdkCalls (calls r) = [] ∧ container r = ∅.
Proof.
  split; [reflexivity|].
  apply (compact_rejections_are_text (Fixture.parser Fixture.seven)
           Fixture.store Fixture.machine Fixture.multipartPost ∅
           (ApiIndex.text 400 "No file uploaded")); reflexivity.
Defined.

(** X17. The compact handler reads and parses the body outside its [try]:
    when the body cannot be read or the parser throws, the handler rejects
    with that error instead of answering, and the blob SDK is not
    called. *)
Theorem compact_parse_failure_rejects
    multipart sdk host request stored contentType e :
  contentTypeOf request = Some contentType →
  getBoundary multipart contentType ≠ "" →
  (arrayBuffer request = inl e ∨
   ∃ bodyBuffer, arrayBuffer request = inr bodyBuffer ∧
     Parse multipart bodyBuffer (getBoundary multipart contentType) = inl e) →
  let r := ApiIndex.handler multipart sdk host request stored in
  result r = inl e ∧ sdkCalls (calls r) = [] ∧ container r = stored.
Proof.
  intros Hct Hb Hfail. unfold ApiIndex.handler, ApiIndex.handlerM.
  unfold contentTypeOf in Hct.
  destruct (Js.or_else _ _) as [[|c ct]|]; try discriminate Hct.
  cbn [Js.truthy] in Hct. injection Hct as <-.
  cbn [Js.truthy Js.str negb].
  destruct (getBoundary _ _) as [|? ?] eqn:?; [congruence|].
  cbn [Js.truthy Js.str negb].
  destruct Hfail as [Hbuf|(bodyBuffer & Hbuf & Hparse)]; rewrite Hbuf;
    unfold_effects; simpl; rewrite ?Hparse; simpl; auto.
Qed.

Lemma compact_parse_failure_rejects_witness :
  let r := ApiIndex.handler Scenario.brokenParser Fixture.store
             Fixture.machine Fixture.multipartPost ∅ in
  result r = inl Scenario.truncated ∧ sdkCalls (calls r) = [] ∧
  container r = ∅.
Proof.
  apply (compact_parse_failure_rejects Scenario.brokenParser Fixture.store
           Fixture.machine Fixture.multipartPost ∅
           "multipart/form-data; boundary=XyZ" Scenario.truncated).
  - reflexivity.
  - discriminate.
  - right. exists (Fixture.bytes "raw"). split; reflexivity.
Defined.

(** X18. The two handlers collect the same metadata under every name but
    two: the compact handler also records a field whose name is empty, and
    records a part without any name under ["undefined"], which the full
    handler both skips. *)
Theorem handlers_agree_on_fields h parts :
  (∀ k, k ≠ "" → k ≠ "undefined" →
        ApiIndex.collectFields h parts !! k =
        Storage.collectFields h parts !! k) ∧
  (∀ p, Js.truthy (filename p) = false → name p = None →
        ApiIndex.collectFields h (parts ++ [p]) !! "undefined" =
          Some (Buffer_toString h (data p)) ∧
        Storage.collectFields h (parts ++ [p]) =
          Storage.collectFields h parts).
Proof.
  split.
  - intros k Hk Hu. unfold ApiIndex.collectFields, Storage.collectFields.
    induction parts as [|p l IH] using rev_ind; [reflexivity|].
    rewrite !foldl_app. simpl.
    unfold ApiIndex.addField at 1, Storage.addField at 1.
    destruct (Js.truthy (filename p)); simpl; [exact IH|].
    destruct (name p) as [[|a n]|]; simpl.
    + rewrite lookup_insert_ne by congruence. exact IH.
    + rewrite !lookup_insert. case_decide; [reflexivity | exact IH].
    + rewrite lookup_insert_ne by congruence. exact IH.
  - intros p Hfile Hname. unfold ApiIndex.collectFields, Storage.collectFields.
    rewrite !foldl_app. simpl.
    unfold ApiIndex.addField at 1, Storage.addField at 1.
    rewrite Hfile, Hname. simpl. split; [apply lookup_insert_eq | reflexivity].
Qed.

Lemma handlers_agree_on_fields_witness :
  let parts := [Fixture.field "unit" "kWh"] in
  let nameless := mkPart None None None (Fixture.bytes "x") in
  ApiIndex.collectFields Fixture.machine (parts ++ [nameless]) !! "undefined"
    = Some "x" ∧
  Storage.collectFields Fixture.machine (parts ++ [nameless]) =
  Storage.collectFields Fixture.machine parts.
Proof.
  intros parts nameless.
  apply (handlers_agree_on_fields Fixture.machine parts); reflexivity.
Defined.

(** ** The earlier function *)

(** X19. The earlier function has no [try]: when the body cannot be read,
    the parser throws, or a call to the blob SDK throws, the invocation
    rejects with that error and [context.res] is never set. *)
Theorem legacy_failures_reject
    multipart sdk host req stored contentType e :
  contentTypeOf req = Some contentType →
  (arrayBuffer req = inl e ∨
   ∃ bodyBuffer, arrayBuffer req = inr bodyBuffer ∧
     (Parse multipart bodyBuffer (getBoundary multipart contentType) = inl e ∨
      ∃ parts file,
        Parse multipart bodyBuffer (getBoundary multipart contentType)
          = inr parts ∧
        Storage.filePart parts = Some file ∧
        legacySdkFailure sdk (env_AzureWebJobsStorage host)
          (Js.str (filename file)) (data file) = Some e)) →
  result (Legacy.handler multipart sdk host req stored) = inl e.
Proof.
  intros Hct Hfail. unfold Legacy.handler, Legacy.handlerM.
  unfold contentTypeOf in Hct.
  destruct (Js.or_else _ _) as [[|c ct]|]; try discriminate Hct.
  cbn [Js.truthy] in Hct. injection Hct as <-.
  cbn [Js.truthy Js.str negb].
  destruct Hfail as [Hbuf|(bodyBuffer & Hbuf & Hfail)]; rewrite Hbuf;
    unfold_effects; simpl; [reflexivity|].
  destruct Hfail as [Hparse|(parts & file & Hparse & Hfile & Hsdk)];
    rewrite Hparse; simpl; [reflexivity|].
  rewrite Hfile. simpl. unfold legacySdkFailure in Hsdk.
  destruct (fromConnectionString_throws _ _); simpl; [congruence|].
  destruct (createIfNotExists_throws _ _); simpl; [congruence|].
  destruct (uploadData_throws _ _ _ _); simpl; congruence.
Qed.

Lemma legacy_failures_reject_witness :
  result (Legacy.handler (Fixture.parser Fixture.form) Fixture.fullStore
            Fixture.machine Fixture.multipartPost ∅) = inl Fixture.quota.
Proof.
  apply (legacy_failures_reject (Fixture.parser Fixture.form)
           Fixture.fullStore Fixture.machine Fixture.multipartPost ∅
           "multipart/form-data; boundary=XyZ" Fixture.quota).
  - reflexivity.
  - right. exists (Fixture.bytes "raw"). split; [reflexivity|].
    right. exists Fixture.form, (Fixture.upload "report.xlsx" "PK").
    repeat split.
Defined.

(** X20. The earlier function does not check the boundary: with a content
    type from which none can be extracted it still reads the body and
    hands it to the parser, with the empty boundary. *)
Theorem legacy_parses_without_boundary
    multipart sdk host req stored contentType bodyBuffer :
  contentTypeOf req = Some contentType →
  getBoundary multipart contentType = "" →
  arrayBuffer req = inr bodyBuffer →
  EvParse bodyBuffer "" ∈ calls (Legacy.handler multipart sdk host req stored).
Proof.
  intros Hct Hb Hbuf. unfold Legacy.handler, Legacy.handlerM.
  unfold contentTypeOf in Hct.
  destruct (Js.or_else _ _) as [[|c ct]|]; try discriminate Hct.
  cbn [Js.truthy] in Hct. injection Hct as <-.
  cbn [Js.truthy Js.str negb]. rewrite Hb, Hbuf.
  unfold_effects. simpl. split_run;
    repeat first [apply list_elem_of_here | apply list_elem_of_further].
Qed.

Lemma legacy_parses_without_boundary_witness :
  EvParse (Fixture.bytes "raw") "" ∈
  calls (Legacy.handler (Fixture.parser Fixture.form) Fixture.store
           Fixture.machine (Fixture.post "text/plain") ∅).
Proof.
  apply (legacy_parses_without_boundary (Fixture.parser Fixture.form)
           Fixture.store Fixture.machine (Fixture.post "text/plain") ∅
           "text/plain"); reflexivity.
Defined.

(** X21. The earlier function uploads any file part, unchecked, into the
    container [uploads] (not [upload]) under the file name as sent, and
    answers 200 with the file name and the fields, without URL and without
    [success] flag. *)
Theorem legacy_uploads_to_uploads
    multipart sdk host req stored contentType bodyBuffer parts file :
  contentTypeOf req = Some contentType →
  arrayBuffer req = inr bodyBuffer →
  Parse multipart bodyBuffer (getBoundary multipart contentType) = inr parts →
  Storage.filePart parts = Some file →
  legacySdkFailure sdk (env_AzureWebJobsStorage host)
    (Js.str (filename file)) (data file) = None →
  let r := Legacy.handler multipart sdk host req stored in
  ∃ resp j,
    result r = inr resp ∧ status resp = 200 ∧ body resp = Some (Object j) ∧
    fileName j = Some (Js.str (filename file)) ∧
    metadata j = Some (ApiIndex.collectFields host parts) ∧
    url j = None ∧ success j = None ∧
    sdkCalls (calls r) =
      [EvFromConnectionString (env_AzureWebJobsStorage host);
       EvCreateIfNotExists "uploads";
       EvUploadData "uploads" (Js.str (filename file)) (data file) "" ∅].
Proof.
  intros Hct Hbuf Hparse Hfile Hsdk. unfold Legacy.handler, Legacy.handlerM.
  unfold contentTypeOf in Hct.
  destruct (Js.or_else _ _) as [[|c ct]|]; try discriminate Hct.
  cbn [Js.truthy] in Hct. injection Hct as <-.
  cbn [Js.truthy Js.str negb]. rewrite Hbuf. unfold_effects. simpl.
  rewrite Hparse. simpl. rewrite Hfile. simpl.
  unfold legacySdkFailure in Hsdk.
  destruct (fromConnectionString_throws _ _); simpl; [congruence|].
  destruct (createIfNotExists_throws _ _); simpl; [congruence|].
  destruct (uploadData_throws _ _ _ _); simpl; [congruence|].
  eexists _, _. repeat split.
Qed.

Lemma legacy_uploads_to_uploads_witness :
  let parts := [Fixture.upload "notes.txt" "hello"] in
  let r := Legacy.handler (Fixture.parser parts) Fixture.store
             Fixture.machine Fixture.multipartPost ∅ in
  ∃ resp j,
    result r = inr resp ∧ status resp = 200 ∧ body resp = Some (Object j) ∧
    fileName j = Some "notes.txt" ∧
    metadata j = Some (ApiIndex.collectFields Fixture.machine parts) ∧
    url j = None ∧ success j = None ∧
    sdkCalls (calls r) =
      [EvFromConnectionString (Some "UseDevelopmentStorage=true");
       EvCreateIfNotExists "uploads";
       EvUploadData "uploads" "notes.txt" (Fixture.bytes "hello") "" ∅].
Proof.
  intros parts.
  apply (legacy_uploads_to_uploads (Fixture.parser parts) Fixture.store
           Fixture.machine Fixture.multipartPost ∅
           "multipart/form-data; boundary=XyZ" (Fixture.bytes "raw") parts
           (Fixture.upload "notes.txt" "hello")); reflexivity.
Defined.

(** ** The parsing script *)

Lemma analyse_fold h parts fields0 file0 :
  foldl (TestMultipart.visit h) (fields0, file0) parts =
  (foldl (ApiIndex.addField h) fields0 parts,
   match lastFilePart parts with
   | Some p => Some p
   | None => file0
   end).
Proof.
  unfold lastFilePart.
  induction parts as [|p l IH] using rev_ind; [reflexivity|].
  rewrite !foldl_app, rev_unit, IH. simpl.
  unfold TestMultipart.visit, ApiIndex.addField. simpl.
  destruct (Js.truthy (filename p)); reflexivity.
Qed.

Lemma find_is_Some {A} (f : A → bool) l :
  is_Some (List.find f l) ↔ ∃ x, In x l ∧ f x = true.
Proof.
  induction l as [|y l IH]; simpl.
  - split; [intros [? [=]] | intros (? & [] & _)].
  - destruct (f y) eqn:Hy.
    + split; eauto.
    + rewrite IH. split.
      * intros (x & Hx & Hf). eauto.
      * intros (x & [->|Hx] & Hf); [congruence | eauto].
Qed.

(** X22. The script of [testMultipartParsing] takes as file part the last
    part with a filename, where the handlers take the first; it finds one
    exactly when they do; and it collects the fields as the compact handler
    does, nameless parts included. *)
Theorem script_takes_last_file h parts :
  (TestMultipart.analyse h parts).2 = lastFilePart parts ∧
  (TestMultipart.analyse h parts).1 = ApiIndex.collectFields h parts ∧
  (is_Some (lastFilePart parts) ↔ is_Some (Storage.filePart parts)) ∧
  (∀ before p after,
     parts = before ++ p :: after → hasFilename p →
     Forall (λ q, ¬ hasFilename q) after →
     lastFilePart parts = Some p).
Proof.
  unfold TestMultipart.analyse. rewrite analyse_fold. simpl.
  split; [destruct (lastFilePart parts); reflexivity|].
  split; [reflexivity|]. split.
  - unfold lastFilePart, Storage.filePart. rewrite !find_is_Some.
    split; intros (x & Hx & Hf); exists x; (split; [|exact Hf]).
    + apply in_rev, Hx.
    + apply in_rev. rewrite rev_involutive. exact Hx.
  - intros before p after -> Hp Hafter. unfold lastFilePart.
    rewrite rev_app_distr. simpl. rewrite <- app_assoc, find_app_skip.
    + simpl. rewrite Hp. reflexivity.
    + apply Forall_forall. intros x Hx. rewrite Forall_forall in Hafter.
      apply list_elem_of_In, in_rev, list_elem_of_In, Hafter in Hx.
      unfold hasFilename in Hx. destruct (Js.truthy (filename x)); congruence.
Qed.

Lemma script_takes_last_file_witness :
  let first := Fixture.upload "a.xlsx" "A" in
  let second := Fixture.upload "b.xlsx" "B" in
  let parts := Fixture.seven ++ [first; second] in
  lastFilePart parts = Some second ∧ Storage.filePart parts = Some first.
Proof.
  intros first second parts. split; [|reflexivity].
  apply (script_takes_last_file Fixture.machine parts)
    with (before := Fixture.seven ++ [first]) (after := []).
  - reflexivity.
  - reflexivity.
  - constructor.
Defined.

(** X23. The script's check of the required fields is weaker than the
    handler's: every field the script reports missing the handler reports
    too, and the handler reports in addition exactly the required fields
    whose value is not empty but consists of white space only. *)
Theorem script_check_is_weaker fields k :
  k ∈ Storage.missing fields ↔
  k ∈ TestMultipart.missingFields fields ∨
  (k ∈ Storage.requiredFields ∧
   ∃ v, fields !! k = Some v ∧ v ≠ "" ∧ allWhiteSpace v).
Proof.
  unfold Storage.missing, TestMultipart.missingFields.
  rewrite !list_elem_of_In, !filter_In, <- !list_elem_of_In.
  rewrite missing_means_absent_or_white_aux.
  destruct (fields !! k) as [[|a v]|]; simpl.
  - split.
    + intros [H _]. left. auto.
    + intros [[H _]|[H _]]; (split; [exact H|]); right; exists ""; simpl; auto.
  - split.
    + intros [H [[=]|(v' & [= <-] & Hw)]]. right. split; [exact H|].
      exists (String a v). split; [reflexivity|]. split; [discriminate|exact Hw].
    + intros [[_ [=]]|[H (v' & [= <-] & _ & Hw)]]. split; [exact H|].
      right. eauto.
  - split.
    + intros [H _]. left. auto.
    + intros [[H _]|[H (? & [=] & _)]]. auto.
Qed.

(** ** Collisions and dropped parts *)

(** X24. The key depends on the request and on the first reading of the
    clock only: when the same valid submission is handled twice by a host
    whose clock gives the same readings, both uploads go to one key and the
    second replaces the first, leaving the container as the first upload
    left it. *)
Theorem same_instant_same_key
    multipart sdk host request stored parts file cs :
  validSubmission multipart host request parts file →
  credential host cs →
  let key := Storage.uniqueFilename (Storage.collectFields host parts)
               (now host 0) (Js.pop (Js.splitDot (Js.str (filename file)))) in
  sdkFailure sdk (Some cs) key (data file) = None →
  let r1 := Storage.handler multipart sdk host request stored in
  let r2 := Storage.handler multipart sdk host request (container r1) in
  ∃ j1 j2,
    result r1 = inr (Storage.respond 200 j1) ∧
    result r2 = inr (Storage.respond 200 j2) ∧
    fileName j1 = Some key ∧ fileName j2 = Some key ∧
    container r2 = container r1 ∧
    dom (container r1) = {[ key ]} ∪ dom stored.
Proof.
  intros Hvalid Hcred key Hok r1 r2.
  pose proof (handler_sdk_outcome multipart sdk host request stored parts
                file cs Hvalid Hcred) as H1.
  cbv zeta in H1. fold key in H1. rewrite Hok in H1.
  destruct H1 as (e1 & He1 & Hr1 & _ & Hc1).
  pose proof (handler_sdk_outcome multipart sdk host request (container r1)
                parts file cs Hvalid Hcred) as H2.
  cbv zeta in H2. fold key in H2. rewrite Hok in H2.
  destruct H2 as (e2 & He2 & Hr2 & _ & Hc2).
  assert (e2 = e1) as -> by congruence.
  fold r1 in Hc1. fold r2 in Hc2.
  eexists _, _. split; [exact Hr1|]. split; [exact Hr2|].
  split; [reflexivity|]. split; [reflexivity|].
  rewrite Hc2, Hc1, insert_insert_eq. split; [reflexivity|].
  apply dom_insert_L.
Qed.

Lemma same_instant_same_key_witness :
  let r1 := Storage.handler (Fixture.parser Fixture.form) Fixture.store
              Fixture.machine Fixture.multipartPost ∅ in
  let r2 := Storage.handler (Fixture.parser Fixture.form) Fixture.store
              Fixture.machine Fixture.multipartPost (container r1) in
  ∃ j1 j2,
    result r1 = inr (Storage.respond 200 j1) ∧
    result r2 = inr (Storage.respond 200 j2) ∧
    fileName j1 = Some "Acme_2025-06-26T22-09-19-000Z.xlsx" ∧
    fileName j2 = Some "Acme_2025-06-26T22-09-19-000Z.xlsx" ∧
    container r2 = container r1 ∧
    dom (container r1) =
      {[ "Acme_2025-06-26T22-09-19-000Z.xlsx" ]} ∪
      dom (∅ : gmap string StoredBlob).
Proof.
  apply (same_instant_same_key (Fixture.parser Fixture.form) Fixture.store
           Fixture.machine Fixture.multipartPost ∅ Fixture.form
           (Fixture.upload "report.xlsx" "PK") "UseDevelopmentStorage=true").
  - split; [fixture_parses|]. split; [reflexivity|].
    split; [apply isExcelFile_spec; reflexivity | decide_by_computing].
  - split; [discriminate | left; reflexivity].
  - reflexivity.
Defined.



